(** * Cell-set hierarchy induction of cas-tools (conversion_utils.py)

    A shallow embedding of [src/cas/utils/conversion_utils.py]: rank
    assignment over ordered labelsets, the per-label lookup table, the
    pairwise parent discovery and the enrichment of annotation records.

    Python dictionaries that are only read by key are [gmap]s; the two
    dictionaries whose iteration order the code depends on are [pydict]s
    (a key list in insertion order next to the store).  Exceptions are an
    explicit [result] type. *)

From Stdlib Require Import ZArith String Ascii List.
From stdpp Require Import base option list gmap strings pretty fin_maps fin_sets relations.

Open Scope string_scope.
Open Scope Z_scope.

(** ** Exceptions and the error monad *)

Inductive exn :=
  | ValueError (msg : string)
  | TypeError
  | KeyError (key : string)
  | IndexError.

Inductive result (A : Type) :=
  | Ok (a : A)
  | Raise (e : exn).
Arguments Ok {A} a.
Arguments Raise {A} e.

#[global] Instance result_ret : MRet result := fun A a => Ok a.
#[global] Instance result_bind : MBind result := fun A B f m =>
  match m with
  | Ok a => f a
  | Raise e => Raise e
  end.

(** ** Python builtins and the external accession service

    [int(s)] on a string and [str.lower] are builtins of the interpreter;
    [HashAccessionManager.generate_accession_id] lives outside the files
    modelled here.  They are interfaces: every theorem below holds for all
    their implementations. *)

Class PyBuiltins := {
  py_int : string -> option Z;
  py_lower : string -> string
}.

Class AccessionManager := {
  generate_accession_id : list string -> string -> string
}.

(** [str(n)] for an integer is its decimal rendering. *)
Definition py_str (z : Z) : string := pretty z.

(** Truth value of [d.get(key)] for a string-valued field: a missing key
    gives [None], and the empty string is false as well. *)
Definition truthy (o : option string) : bool :=
  match o with
  | Some s => negb (String.eqb s "")
  | None => false
  end.

(** ** Insertion-ordered dictionaries *)

Record pydict (V : Type) := PyDict {
  dict_keys : list string;
  dict_store : gmap string V
}.
Arguments PyDict {V} _ _.
Arguments dict_keys {V} _.
Arguments dict_store {V} _.

Definition dict_empty {V} : pydict V := PyDict [] ∅.

Definition dict_get {V} (d : pydict V) (k : string) : option V :=
  dict_store d !! k.

(** [d[k] = v]: a new key goes to the end, an old key keeps its place. *)
Definition dict_set {V} (k : string) (v : V) (d : pydict V) : pydict V :=
  PyDict (if decide (k ∈ dict_keys d) then dict_keys d else dict_keys d ++ [k])
         (<[k := v]> (dict_store d)).

Definition dict_items {V} (d : pydict V) : list (string * V) :=
  omap (fun k => pair k <$> dict_store d !! k) (dict_keys d).

Definition dict_of_list {V} (l : list (string * V)) : pydict V :=
  foldl (fun d kv => dict_set kv.1 kv.2 d) dict_empty l.

(** A dictionary is well formed when its key list enumerates the store. *)
Definition dict_wf {V} (d : pydict V) : Prop :=
  NoDup (dict_keys d) /\ forall k, k ∈ dict_keys d <-> is_Some (dict_store d !! k).

(** ** Rank Assigner *)

Definition enumerate {A} (l : list A) : list (nat * A) :=
  imap (fun i x => (i, x)) l.

(** [{item: list_length - 1 - rank for rank, item in enumerate(input_list)}] *)
Definition calculate_labelset_rank (input_list : list string) : gmap string Z :=
  let list_length := Z.of_nat (length input_list) in
  foldl (fun d ri => <[ri.2 := list_length - 1 - Z.of_nat ri.1]> d)
        ∅ (enumerate input_list).

(** ** The observation table

    [anndata.obs] is a pandas DataFrame: an index of cell identifiers and
    named columns aligned with it.  Label columns and the two ontology
    columns hold strings. *)

Record DataFrame := {
  df_index : list string;
  df_columns : gmap string (list string)
}.

(** [obs[name]]: a missing column is a [KeyError]. *)
Definition df_column (obs : DataFrame) (name : string) : result (list string) :=
  match df_columns obs !! name with
  | Some col => Ok col
  | None => Raise (KeyError name)
  end.

(** Boolean-mask selection [values[mask]]. *)
Definition select_mask {A} (mask : list bool) (values : list A) : list A :=
  (filter (fun bv => bv.1 = true) (zip mask values)).*2.

(** [series.iloc[0]] *)
Definition iloc0 {A} (values : list A) : result A :=
  match values with
  | x :: _ => Ok x
  | [] => Raise IndexError
  end.

(** ** Cell-Set Collector *)

Record Labelset := {
  members : list string;   (* the set of labels, in the order the loop visits it *)
  labelset_rank : string
}.

Record Entry := {
  cell_ids : gset string;
  accession : string;
  rank : string;
  cell_ontology_term_id : string;
  cell_ontology_term : string;
  parent : option string;
  p_accession : option string;
  parent_rank : option string
}.

Definition calculate_labelset (obs : DataFrame) (labelsets : list string)
  : result (pydict Labelset) :=
  let labelset_rank_dict := calculate_labelset_rank labelsets in
  (fix loop (items : list string) (labelset_dict : pydict Labelset) :=
     match items with
     | [] => Ok labelset_dict
     | item :: rest =>
         col ← df_column obs item;
         loop rest
           (dict_set item
              {| members := remove_dups col;
                 labelset_rank :=
                   match labelset_rank_dict !! item with
                   | Some r => py_str r
                   | None => "None"
                   end |}
              labelset_dict)
     end) labelsets dict_empty.

Definition get_cell_ids `{PyBuiltins} (anndata_obs : DataFrame)
    (labelset cell_label : string) : result (list string) :=
  let cell_label_lower := py_lower cell_label in
  col ← df_column anndata_obs labelset;
  Ok (select_mask
        (map (fun v => bool_decide (py_lower v = cell_label_lower)) col)
        (df_index anndata_obs)).

Definition get_cl_annotations_from_anndata (anndata_obs : DataFrame)
    (columns_name cell_label : string) : result (string * string) :=
  col ← df_column anndata_obs columns_name;
  let mask := map (fun v => bool_decide (v = cell_label)) col in
  ids ← df_column anndata_obs "cell_type_ontology_term_id";
  cell_ontology_term_id ← iloc0 (select_mask mask ids);
  terms ← df_column anndata_obs "cell_type";
  cell_ontology_term ← iloc0 (select_mask mask terms);
  Ok (cell_ontology_term_id, cell_ontology_term).

(** [entry["cell_ids"].update(cell_ids)] *)
Definition update_cell_ids (e : Entry) (ids : list string) : Entry :=
  {| cell_ids := cell_ids e ∪ list_to_set ids;
     accession := accession e;
     rank := rank e;
     cell_ontology_term_id := cell_ontology_term_id e;
     cell_ontology_term := cell_ontology_term e;
     parent := parent e;
     p_accession := p_accession e;
     parent_rank := parent_rank e |}.

(** The body of the inner loop of [generate_parent_cell_lookup] for the
    label [label] of the labelset [k] whose record is [v]. *)
Definition lookup_step `{PyBuiltins} `{AccessionManager} (anndata_obs : DataFrame)
    (k : string) (v : Labelset) (label : string)
    (parent_cell_look_up : pydict Entry) : result (pydict Entry) :=
  ct ← get_cl_annotations_from_anndata anndata_obs k label;
  ids ← get_cell_ids anndata_obs k label;
  let cell_set_accession := generate_accession_id ids k in
  match dict_get parent_cell_look_up label with
  | Some e =>
      Ok (dict_set label (update_cell_ids e ids) parent_cell_look_up)
  | None =>
      Ok (dict_set label
            {| cell_ids := list_to_set ids;
               accession := cell_set_accession;
               rank := labelset_rank v;
               cell_ontology_term_id := ct.1;
               cell_ontology_term := ct.2;
               parent := None;
               p_accession := None;
               parent_rank := None |}
            parent_cell_look_up)
  end.

(** The (labelset, label) occurrences in the order the two nested loops
    visit them. *)
Definition occurrences (labelset_dict : pydict Labelset)
  : list (string * Labelset * string) :=
  flat_map (fun kv => map (fun label => (kv.1, kv.2, label)) (members kv.2))
           (dict_items labelset_dict).

Fixpoint lookup_loop `{PyBuiltins} `{AccessionManager} (anndata_obs : DataFrame)
    (occs : list (string * Labelset * string))
    (parent_cell_look_up : pydict Entry) : result (pydict Entry) :=
  match occs with
  | [] => Ok parent_cell_look_up
  | (k, v, label) :: rest =>
      d ← lookup_step anndata_obs k v label parent_cell_look_up;
      lookup_loop anndata_obs rest d
  end.

Definition generate_parent_cell_lookup `{PyBuiltins} `{AccessionManager}
    (anndata_obs : DataFrame) (labelset_dict : pydict Labelset)
  : result (pydict Entry) :=
  lookup_loop anndata_obs (occurrences labelset_dict) dict_empty.

(** Reading the collector's loop: the first and the last visit of a label,
    and the cells that some visit of the label selects. *)
Definition first_occurrence (label : string)
    (occs : list (string * Labelset * string)) (k : string) (v : Labelset) : Prop :=
  exists before after,
    occs = (before ++ (k, v, label) :: after)%list /\
    forall o, o ∈ before -> o.2 <> label.

Definition last_occurrence (label : string)
    (occs : list (string * Labelset * string)) (k : string) (v : Labelset) : Prop :=
  exists before after,
    occs = (before ++ (k, v, label) :: after)%list /\
    forall o, o ∈ after -> o.2 <> label.

Definition merged_cells `{PyBuiltins} (anndata_obs : DataFrame) (label : string)
    (occs : list (string * Labelset * string)) (c : string) : Prop :=
  exists k v ids,
    (k, v, label) ∈ occs /\ get_cell_ids anndata_obs k label = Ok ids /\ c ∈ ids.

(** What the lookup holds once the occurrences [occs] have been visited. *)
Definition collected `{PyBuiltins} `{AccessionManager} (anndata_obs : DataFrame)
    (occs : list (string * Labelset * string)) (d : pydict Entry) : Prop :=
  dict_wf d /\
  forall label,
    match dict_get d label with
    | None => forall o, o ∈ occs -> o.2 <> label
    | Some e =>
        (exists k v ids ct,
           first_occurrence label occs k v /\
           get_cell_ids anndata_obs k label = Ok ids /\
           get_cl_annotations_from_anndata anndata_obs k label = Ok ct /\
           accession e = generate_accession_id ids k /\
           rank e = labelset_rank v /\
           cell_ontology_term_id e = ct.1 /\
           cell_ontology_term e = ct.2) /\
        (parent e = None /\ p_accession e = None /\ parent_rank e = None) /\
        (forall c, c ∈ cell_ids e <-> merged_cells anndata_obs label occs c)
    end.

(** ** Hierarchy Builder *)

Definition update_parent_info (value : Entry) (parent_key : string)
    (parent_value : Entry) : Entry :=
  {| cell_ids := cell_ids value;
     accession := accession value;
     rank := rank value;
     cell_ontology_term_id := cell_ontology_term_id value;
     cell_ontology_term := cell_ontology_term value;
     parent := Some parent_key;
     p_accession := Some (accession parent_value);
     parent_rank := Some (rank parent_value) |}.

(** [int(entry["rank"])] *)
Definition int_rank `{PyBuiltins} (e : Entry) : result Z :=
  match py_int (rank e) with
  | Some z => Ok z
  | None =>
      Raise (ValueError ("invalid literal for int() with base 10: '" ++ rank e ++ "'"))
  end.

(** The guard that opens the loop body:
    [key == inner_key or value.get("parent") and
     value.get("parent_rank", 0) <= inner_value.get("rank")].
    Ranks are strings, so [<=] is the lexicographic order of [str]; with
    [parent_rank] missing the default [0] meets a string and the
    comparison is a [TypeError]. *)
Definition skip_pair (key inner_key : string) (value inner_value : Entry)
  : result bool :=
  if String.eqb key inner_key then Ok true
  else if truthy (parent value) then
    match parent_rank value with
    | Some pr => Ok (String.leb pr (rank inner_value))
    | None => Raise TypeError
    end
  else Ok false.

Definition ambiguity_message (key inner_key : string) : string :=
  key ++ " and " ++ inner_key ++
  " cell labels have the same cell_ids. Cell_ids can't be identical at the same rank.".

(** One iteration of the loop over ordered pairs.  The entries are
    shared objects, so both are read from the current store. *)
Definition pair_step `{PyBuiltins} (st : gmap string Entry)
    (key inner_key : string) : result (gmap string Entry) :=
  match st !! key, st !! inner_key with
  | Some value, Some inner_value =>
      skip ← skip_pair key inner_key value inner_value;
      if (skip : bool) then Ok st
      else if bool_decide (cell_ids value ≠ cell_ids inner_value)
              && bool_decide (cell_ids value ⊆ cell_ids inner_value)
      then Ok (<[key := update_parent_info value inner_key inner_value]> st)
      else if bool_decide (cell_ids value = cell_ids inner_value) then
        ri ← int_rank inner_value;
        rv ← int_rank value;
        if ri <? rv
        then Ok (<[inner_key := update_parent_info inner_value key value]> st)
        else if rv <? ri
        then Ok (<[key := update_parent_info value inner_key inner_value]> st)
        else Raise (ValueError (ambiguity_message key inner_key))
      else Ok st
  | None, _ => Raise (KeyError key)
  | _, None => Raise (KeyError inner_key)
  end.

Fixpoint run_pairs `{PyBuiltins} (pairs : list (string * string))
    (st : gmap string Entry) : result (gmap string Entry) :=
  match pairs with
  | [] => Ok st
  | (key, inner_key) :: rest =>
      st' ← pair_step st key inner_key;
      run_pairs rest st'
  end.

(** [itertools.product(items, repeat=2)] over the keys. *)
Definition product2 (keys : list string) : list (string * string) :=
  list_prod keys keys.

Definition add_parent_cell_hierarchy `{PyBuiltins}
    (parent_cell_look_up : pydict Entry) : result (pydict Entry) :=
  st ← run_pairs (product2 (dict_keys parent_cell_look_up))
                 (dict_store parent_cell_look_up);
  Ok (PyDict (dict_keys parent_cell_look_up) st).

(** ** Annotation Enricher *)

Record Annotation := {
  ann_labelset : string;
  ann_cell_label : string;
  ann_cell_fullname : string;
  ann_cell_set_accession : string;
  ann_cell_ontology_term_id : option string;   (* [None]: the key is absent *)
  ann_cell_ontology_term : option string;
  ann_cell_ids : list string;
  parent_cell_set_name : option string;
  parent_cell_set_accession : option string
}.

(** The loop body of [generate_cas_annotations]; the fields that the
    source sets to [None] are filtered out before the append and have no
    place in the record. *)
Definition annotation_step `{PyBuiltins} (anndata_obs : DataFrame)
    (parent_cell_look_up : pydict Entry) (k : string) (label : string)
    (annotations : list Annotation) : result (list Annotation) :=
  ids ← get_cell_ids anndata_obs k label;
  match dict_get parent_cell_look_up label with
  | Some e =>
      Ok (app annotations
          [ {| ann_labelset := k;
               ann_cell_label := label;
               ann_cell_fullname := label;
               ann_cell_set_accession := accession e;
               ann_cell_ontology_term_id := Some (cell_ontology_term_id e);
               ann_cell_ontology_term := Some (cell_ontology_term e);
               ann_cell_ids := ids;
               parent_cell_set_name := None;
               parent_cell_set_accession := None |} ])
  | None => Raise (KeyError label)
  end.

Fixpoint annotation_loop `{PyBuiltins} (anndata_obs : DataFrame)
    (parent_cell_look_up : pydict Entry)
    (occs : list (string * Labelset * string))
    (annotations : list Annotation) : result (list Annotation) :=
  match occs with
  | [] => Ok annotations
  | (k, _, label) :: rest =>
      anns ← annotation_step anndata_obs parent_cell_look_up k label annotations;
      annotation_loop anndata_obs parent_cell_look_up rest anns
  end.

Definition generate_cas_annotations `{PyBuiltins} (anndata_obs : DataFrame)
    (annotations : list Annotation) (labelset_dict : pydict Labelset)
    (parent_cell_look_up : pydict Entry) : result (list Annotation) :=
  annotation_loop anndata_obs parent_cell_look_up
                  (occurrences labelset_dict) annotations.

(** [annotation.update({parent_cell_set_name, parent_cell_set_accession})] *)
Definition set_parent_fields (a : Annotation) (name acc : option string)
  : Annotation :=
  {| ann_labelset := ann_labelset a;
     ann_cell_label := ann_cell_label a;
     ann_cell_fullname := ann_cell_fullname a;
     ann_cell_set_accession := ann_cell_set_accession a;
     ann_cell_ontology_term_id := ann_cell_ontology_term_id a;
     ann_cell_ontology_term := ann_cell_ontology_term a;
     ann_cell_ids := ann_cell_ids a;
     parent_cell_set_name := name;
     parent_cell_set_accession := acc |}.

(** The two [annotation.pop(..., None)] calls. *)
Definition pop_ontology_fields (a : Annotation) : Annotation :=
  {| ann_labelset := ann_labelset a;
     ann_cell_label := ann_cell_label a;
     ann_cell_fullname := ann_cell_fullname a;
     ann_cell_set_accession := ann_cell_set_accession a;
     ann_cell_ontology_term_id := None;
     ann_cell_ontology_term := None;
     ann_cell_ids := ann_cell_ids a;
     parent_cell_set_name := parent_cell_set_name a;
     parent_cell_set_accession := parent_cell_set_accession a |}.

(** The loop body of [add_parent_hierarchy_to_annotations] on one record. *)
Definition enrich (parent_cell_look_up : pydict Entry) (annotation : Annotation)
  : Annotation :=
  let parent_info := dict_get parent_cell_look_up (ann_cell_label annotation) in
  let parent := parent_info ≫= parent in
  let p_accession := parent_info ≫= p_accession in
  if truthy parent && truthy p_accession then
    let annotation := set_parent_fields annotation parent p_accession in
    let parent_dict := parent ≫= dict_get parent_cell_look_up in
    if bool_decide (cell_ontology_term_id <$> parent_dict
                    = ann_cell_ontology_term_id annotation)
       && bool_decide (cell_ontology_term <$> parent_dict
                       = ann_cell_ontology_term annotation)
    then pop_ontology_fields annotation
    else annotation
  else annotation.

(** The records are mutated in place: the step for position [i] rewrites
    that slot of the list. *)
Definition enrich_at (parent_cell_look_up : pydict Entry) (i : nat)
    (annotation_list : list Annotation) : list Annotation :=
  match annotation_list !! i with
  | Some annotation =>
      <[i := enrich parent_cell_look_up annotation]> annotation_list
  | None => annotation_list
  end.

Definition enrich_steps (parent_cell_look_up : pydict Entry)
    (indices : list nat) (annotation_list : list Annotation) : list Annotation :=
  foldl (fun l i => enrich_at parent_cell_look_up i l) annotation_list indices.

(** [cas.get("annotations", [])] is the list handed in here. *)
Definition add_parent_hierarchy_to_annotations
    (annotation_list : list Annotation) (parent_cell_look_up : pydict Entry)
  : list Annotation :=
  enrich_steps parent_cell_look_up (seq 0 (length annotation_list)) annotation_list.

(** ** Reading the hierarchy *)

(** The parent link of a label, as stored. *)
Definition parent_of (st : gmap string Entry) (k : string) : option string :=
  st !! k ≫= parent.

Definition parent_link (st : gmap string Entry) (k p : string) : Prop :=
  parent_of st k = Some p.

(** No label reaches itself along parent links. *)
Definition acyclic (st : gmap string Entry) : Prop :=
  forall k, ~ tc (parent_link st) k k.

(** Walk up from [k] until a label without parent; [None] when the fuel
    runs out or the walk leaves the table. *)
Fixpoint climb (fuel : nat) (st : gmap string Entry) (k : string) : option string :=
  match fuel with
  | O => None
  | S fuel' =>
      match st !! k with
      | None => None
      | Some e =>
          match parent e with
          | None => Some k
          | Some p => climb fuel' st p
          end
      end
  end.

(** [A] lies below [B]: a strictly smaller cell set, or the same cell set
    at a strictly smaller integer rank. *)
Definition below `{PyBuiltins} (a b : Entry) : Prop :=
  cell_ids a ⊂ cell_ids b \/
  (cell_ids a = cell_ids b /\
   exists ra rb, py_int (rank a) = Some ra /\ py_int (rank b) = Some rb /\ ra < rb).

(** A lookup as [generate_parent_cell_lookup] leaves it: no parent fields. *)
Definition unparented (st : gmap string Entry) : Prop :=
  map_Forall (fun _ e =>
    parent e = None /\ p_accession e = None /\ parent_rank e = None) st.

(** The fields of an entry that the hierarchy builder never writes. *)
Definition clear_parent (e : Entry) : Entry :=
  {| cell_ids := cell_ids e;
     accession := accession e;
     rank := rank e;
     cell_ontology_term_id := cell_ontology_term_id e;
     cell_ontology_term := cell_ontology_term e;
     parent := None;
     p_accession := None;
     parent_rank := None |}.

(** Every recorded parent is another label of the table, lies above the
    child, and the copied accession and rank are the parent's own. *)
Definition well_parented `{PyBuiltins} (st : gmap string Entry) : Prop :=
  forall k e p, st !! k = Some e -> parent e = Some p ->
    p <> k /\
    exists pe, st !! p = Some pe /\
      p_accession e = Some (accession pe) /\
      parent_rank e = Some (rank pe) /\
      below e pe.

(** How many entries of the table lie above [e]. *)
Definition count_above `{PyBuiltins} `{forall a b, Decision (below a b)}
    (st : gmap string Entry) (e : Entry) : nat :=
  length (filter (fun kv => below e kv.2) (map_to_list st)).

(** What one pair can do to the store: nothing, or one adoption in
    which the child lies below its new parent. *)
Inductive pair_effect `{PyBuiltins} (st : gmap string Entry)
    (key inner_key : string) : gmap string Entry -> Prop :=
  | effect_none : pair_effect st key inner_key st
  | effect_adopt child par v pv :
      (child = key /\ par = inner_key) \/ (child = inner_key /\ par = key) ->
      child <> par ->
      st !! child = Some v -> st !! par = Some pv ->
      below v pv ->
      pair_effect st key inner_key (<[child := update_parent_info v par pv]> st).

(** ** A concrete interpreter for the examples

    Decimal literals with an optional sign and ASCII lower-casing: what
    [int] and [str.lower] do on the strings the examples use. *)

Definition digit_value (c : ascii) : option Z :=
  let n := Z.of_N (N_of_ascii c) in
  if (48 <=? n) && (n <=? 57) then Some (n - 48) else None.

Fixpoint decimal_digits (acc : Z) (s : string) : option Z :=
  match s with
  | EmptyString => Some acc
  | String c rest =>
      match digit_value c with
      | Some d => decimal_digits (10 * acc + d) rest
      | None => None
      end
  end.

Definition decimal_int (s : string) : option Z :=
  match s with
  | EmptyString => None
  | String "-" (String _ _ as rest) => Z.opp <$> decimal_digits 0 rest
  | String "+" (String _ _ as rest) => decimal_digits 0 rest
  | _ => decimal_digits 0 s
  end.

Definition ascii_lower_char (c : ascii) : ascii :=
  let n := N_of_ascii c in
  if ((65 <=? n) && (n <=? 90))%N then ascii_of_N (n + 32) else c.

Fixpoint ascii_lower (s : string) : string :=
  match s with
  | EmptyString => EmptyString
  | String c rest => String (ascii_lower_char c) (ascii_lower rest)
  end.

Definition cpython : PyBuiltins :=
  {| py_int := decimal_int; py_lower := ascii_lower |}.

(** A stand-in accession service: the labelset name followed by the ids. *)
Definition plain_accessions : AccessionManager :=
  {| generate_accession_id := fun ids labelset =>
       labelset ++ ":" ++ String.concat "," ids |}.

(** A bare lookup entry. *)
Definition entry (ids : list string) (acc rk : string) : Entry :=
  {| cell_ids := list_to_set ids;
     accession := acc;
     rank := rk;
     cell_ontology_term_id := "";
     cell_ontology_term := "";
     parent := None;
     p_accession := None;
     parent_rank := None |}.

(** What a caller reads off a finished lookup. *)
Definition parents_of (r : result (pydict Entry))
  : result (list (string * option string)) :=
  d ← r;
  Ok (map (fun k => (k, parent_of (dict_store d) k)) (dict_keys d)).

(** The lookup a successful run leaves, or the empty one. *)
Definition finished (r : result (pydict Entry)) : pydict Entry :=
  match r with
  | Ok d => d
  | Raise _ => dict_empty
  end.

(** ** Example lookups *)

(** Scenario 2 of the design: one cell set at ranks 3 and 1. *)
Definition two_ranks : pydict Entry :=
  dict_of_list [ ("alpha", entry ["5"; "6"; "7"] "acc_alpha" "3");
                 ("beta", entry ["5"; "6"; "7"] "acc_beta" "1") ].

Definition two_ranks_done : pydict Entry :=
  Eval vm_compute in finished (add_parent_cell_hierarchy (H := cpython) two_ranks).

(** One cell set at ranks 0, 1 and 2, finest first and coarsest first. *)
Definition three_levels_up : pydict Entry :=
  dict_of_list [ ("X", entry ["1"] "acc_X" "0");
                 ("Y", entry ["1"] "acc_Y" "1");
                 ("Z", entry ["1"] "acc_Z" "2") ].

Definition three_levels_down : pydict Entry :=
  dict_of_list [ ("Z", entry ["1"] "acc_Z" "2");
                 ("Y", entry ["1"] "acc_Y" "1");
                 ("X", entry ["1"] "acc_X" "0") ].

(** Eleven labelsets give the ranks "10" down to "0"; three of the labels. *)
Definition eleven_ranks : pydict Entry :=
  dict_of_list [ ("B", entry ["1"; "2"] "acc_B" "10");
                 ("P", entry ["1"] "acc_P" "9");
                 ("A", entry ["1"] "acc_A" "0") ].

(** Two labels that differ in case only select the same cells of their
    labelset (rank "9"), below a label of the labelset of rank "10". *)
Definition case_twins : pydict Entry :=
  dict_of_list [ ("P", entry ["1"; "2"] "acc_P" "10");
                 ("t", entry ["1"] "acc_t" "9");
                 ("T", entry ["1"] "acc_T" "9") ].

(** The same twins under a superset of lower rank. *)
Definition twins_under_lower_rank : pydict Entry :=
  dict_of_list [ ("P", entry ["1"; "2"] "acc_P" "0");
                 ("A", entry ["1"] "acc_A" "1");
                 ("B", entry ["1"] "acc_B" "1") ].

(** ** Example tables *)

(** Two cells, two labelsets; the label "x" occurs in both. *)
Definition shared_label_table : DataFrame :=
  {| df_index := ["c1"; "c2"];
     df_columns :=
       list_to_map
         [ ("L1", ["x"; "z"]);
           ("L0", ["y"; "x"]);
           ("cell_type_ontology_term_id", ["CL:1"; "CL:2"]);
           ("cell_type", ["one"; "two"]) ] |}.

Definition shared_label_labelsets : pydict Labelset :=
  Eval vm_compute in
    match calculate_labelset shared_label_table ["L1"; "L0"] with
    | Ok d => d
    | Raise _ => dict_empty
    end.

Definition shared_label_lookup : pydict Entry :=
  Eval vm_compute in
    finished (generate_parent_cell_lookup (H := cpython) (H0 := plain_accessions)
                shared_label_table shared_label_labelsets).

(** Two cells under eleven labelsets "L10" ... "L0"; the labels "P" and
    "Q" are reused from "L9" down. *)
Definition eleven_labelsets : list string :=
  ["L10"; "L9"; "L8"; "L7"; "L6"; "L5"; "L4"; "L3"; "L2"; "L1"; "L0"].

Definition eleven_labelset_table : DataFrame :=
  {| df_index := ["1"; "2"];
     df_columns :=
       list_to_map
         ([ ("L10", ["B"; "B"]); ("L0", ["A"; "Q"]);
            ("cell_type_ontology_term_id", ["CL:1"; "CL:2"]);
            ("cell_type", ["one"; "two"]) ]
          ++ map (fun name => (name, ["P"; "Q"]))
                 ["L9"; "L8"; "L7"; "L6"; "L5"; "L4"; "L3"; "L2"; "L1"]) |}.

(** The calls in the order the design gives them (ranks, lookup,
    hierarchy); the caller itself lives outside the file modelled here
    and this composition serves the examples only. *)
Definition example_hierarchy `{PyBuiltins} `{AccessionManager}
    (anndata_obs : DataFrame) (labelsets : list string) : result (pydict Entry) :=
  labelset_dict ← calculate_labelset anndata_obs labelsets;
  parent_cell_look_up ← generate_parent_cell_lookup anndata_obs labelset_dict;
  add_parent_cell_hierarchy parent_cell_look_up.

(** Scenario 5 of the design: a class over two clusters; the first
    cluster repeats the ontology term of the class. *)
Definition family_table : DataFrame :=
  {| df_index := ["1"; "2"];
     df_columns :=
       list_to_map
         [ ("Class", ["cl1"; "cl1"]);
           ("Cluster", ["c1"; "c2"]);
           ("cell_type_ontology_term_id", ["CL:1"; "CL:2"]);
           ("cell_type", ["neuron"; "glia"]) ] |}.

Definition family_labelsets : pydict Labelset :=
  Eval vm_compute in
    match calculate_labelset family_table ["Class"; "Cluster"] with
    | Ok d => d
    | Raise _ => dict_empty
    end.

Definition family_lookup : pydict Entry :=
  Eval vm_compute in
    finished (example_hierarchy (H := cpython) (H0 := plain_accessions)
                family_table ["Class"; "Cluster"]).

Definition family_annotations : list Annotation :=
  Eval vm_compute in
    match generate_cas_annotations (H := cpython) family_table []
            family_labelsets family_lookup with
    | Ok anns => anns
    | Raise _ => []
    end.

(** Three cells; the labelset "Fine" spells one label in two ways, "t"
    and "T", and [get_cell_ids] compares in lower case.  The table is
    read once with two labelsets and once with eleven, the nine extra
    ones repeating the column of "Coarse". *)
Definition twin_table : DataFrame :=
  {| df_index := ["1"; "2"; "3"];
     df_columns :=
       list_to_map
         ([ ("Coarse", ["P"; "P"; "P"]); ("Fine", ["t"; "T"; "u"]);
            ("cell_type_ontology_term_id", ["CL:1"; "CL:1"; "CL:2"]);
            ("cell_type", ["one"; "one"; "two"]) ]
          ++ map (fun name => (name, ["P"; "P"; "P"]))
                 ["R8"; "R7"; "R6"; "R5"; "R4"; "R3"; "R2"; "R1"; "R0"]) |}.

Definition twin_labelsets_two : list string := ["Coarse"; "Fine"].

Definition twin_labelsets_eleven : list string :=
  ["Coarse"; "Fine"; "R8"; "R7"; "R6"; "R5"; "R4"; "R3"; "R2"; "R1"; "R0"].

(** Label and rank of every entry of a lookup, in key order. *)
Definition ranks_of (r : result (pydict Entry))
  : result (list (string * string)) :=
  d ← r;
  Ok (map (fun kv => (kv.1, rank kv.2)) (dict_items d)).

(** Do two labels of a lookup have the same cell-id set? *)
Definition same_cells (r : result (pydict Entry)) (a b : string) : bool :=
  match r with
  | Ok d =>
      bool_decide (is_Some (dict_get d a) /\
                   cell_ids <$> dict_get d a = cell_ids <$> dict_get d b)
  | Raise _ => false
  end.

Definition example_lookup `{PyBuiltins} `{AccessionManager}
    (anndata_obs : DataFrame) (labelsets : list string) : result (pydict Entry) :=
  labelset_dict ← calculate_labelset anndata_obs labelsets;
  generate_parent_cell_lookup anndata_obs labelset_dict.

(** The parent fields are written together. *)
Definition parent_fields_together (st : gmap string Entry) : Prop :=
  forall k e, st !! k = Some e -> parent e = None ->
    p_accession e = None /\ parent_rank e = None.

(** ** Well-formed tables *)


(** The columns the collector reads besides the labelsets. *)
Definition has_ontology_columns (obs : DataFrame) : Prop :=
  is_Some (df_columns obs !! "cell_type_ontology_term_id") /\
  is_Some (df_columns obs !! "cell_type").

(** The loop of [calculate_labelset], from any point of the list on. *)
Fixpoint calculate_labelset_loop (obs : DataFrame)
    (labelset_rank_dict : gmap string Z) (items : list string)
    (labelset_dict : pydict Labelset) : result (pydict Labelset) :=
  match items with
  | [] => Ok labelset_dict
  | item :: rest =>
      col ← df_column obs item;
      calculate_labelset_loop obs labelset_rank_dict rest
        (dict_set item
           {| members := remove_dups col;
              labelset_rank :=
                match labelset_rank_dict !! item with
                | Some r => py_str r
                | None => "None"
                end |}
           labelset_dict)
  end.

(** The record that [generate_cas_annotations] appends for the label
    [label] of the labelset [k]. *)
Definition annotation_of `{PyBuiltins} (anndata_obs : DataFrame)
    (parent_cell_look_up : pydict Entry)
    (occ : string * Labelset * string) (a : Annotation) : Prop :=
  let '(k, _, label) := occ in
  exists e ids,
    dict_get parent_cell_look_up label = Some e /\
    get_cell_ids anndata_obs k label = Ok ids /\
    a = {| ann_labelset := k;
           ann_cell_label := label;
           ann_cell_fullname := label;
           ann_cell_set_accession := accession e;
           ann_cell_ontology_term_id := Some (cell_ontology_term_id e);
           ann_cell_ontology_term := Some (cell_ontology_term e);
           ann_cell_ids := ids;
           parent_cell_set_name := None;
           parent_cell_set_accession := None |}.

(** ** JSON data (cas/linkml/data.py)

    What [json.load] produces: objects are dictionaries in key order,
    numbers are kept as their literal text. *)

Unset Elimination Schemes.
Inductive json :=
  | JNull
  | JBool (b : bool)
  | JNumber (literal : string)
  | JString (s : string)
  | JArray (items : list json)
  | JObject (fields : list (string * json)).
Set Elimination Schemes.

(** [value != ""] is false for the empty string only. *)
Definition is_empty_string (value : json) : bool :=
  match value with
  | JString "" => true
  | _ => false
  end.

Fixpoint remove_empty_strings (json_data : json) : json :=
  match json_data with
  | JObject fields =>
      JObject
        ((fix items (l : list (string * json)) : list (string * json) :=
            match l with
            | [] => []
            | (key, value) :: rest =>
                if is_empty_string value then items rest
                else (key, remove_empty_strings value) :: items rest
            end) fields)
  | JArray values =>
      JArray
        ((fix each (l : list json) : list json :=
            match l with
            | [] => []
            | item :: rest =>
                if is_empty_string item then each rest
                else remove_empty_strings item :: each rest
            end) values)
  | _ => json_data
  end.

(** Is an empty string a member of a list or the value of a key, at any
    depth? *)
Fixpoint has_empty_string (j : json) : bool :=
  match j with
  | JObject fields =>
      (fix any (l : list (string * json)) : bool :=
         match l with
         | [] => false
         | (_, value) :: rest =>
             is_empty_string value || has_empty_string value || any rest
         end) fields
  | JArray values =>
      (fix any (l : list json) : bool :=
         match l with
         | [] => false
         | item :: rest =>
             is_empty_string item || has_empty_string item || any rest
         end) values
  | _ => false
  end.

(** ** More example inputs *)

(** The lookup of [family_table] before the hierarchy is added. *)
Definition family_lookup_bare : pydict Entry :=
  Eval vm_compute in
    finished (generate_parent_cell_lookup (H := cpython) (H0 := plain_accessions)
                family_table family_labelsets).

(** A labelset dictionary naming a label that its column does not hold. *)
Definition ghost_labelsets : pydict Labelset :=
  dict_of_list [ ("Class", {| members := ["ghost"]; labelset_rank := "0" |}) ].

(** Two labels with one cell set at one rank, and nothing else. *)
Definition plain_twins : pydict Entry :=
  dict_of_list [ ("A", entry ["1"] "acc_A" "1");
                 ("B", entry ["1"] "acc_B" "1") ].

(** * Properties *)

(** ** Rank Assigner *)

Section RankAssigner.

Local Abbreviation assign c :=
  (fun (d : gmap string Z) (ri : nat * string) => <[ri.2 := c - 1 - Z.of_nat ri.1]> d).

Lemma enumerate_snoc {A} (l : list A) (x : A) :
  enumerate (l ++ [x]) = (enumerate l ++ [(length l, x)])%list.
Proof.
  unfold enumerate. rewrite imap_app. simpl.
  by rewrite Nat.add_0_r.
Qed.

(** Without repeated names every insertion of the comprehension hits
    a fresh key, so position [i] keeps the value written for it. *)
Lemma rank_fold_lookup (c : Z) (l : list string) (i : nat) (name : string) :
  NoDup l -> l !! i = Some name ->
  foldl (assign c) ∅ (enumerate l) !! name = Some (c - 1 - Z.of_nat i).
Proof.
  revert i name. induction l as [|x l IH] using rev_ind; intros i name Hnd Hi.
  - done.
  - rewrite enumerate_snoc, foldl_app. simpl.
    apply NoDup_app in Hnd as (Hnd & Hfresh & _).
    destruct (decide (i < length l)%nat) as [Hlt|Hge].
    + rewrite lookup_app_l in Hi by done.
      assert (name ≠ x) as Hne.
      { intros ->. eapply Hfresh; [by eapply list_elem_of_lookup_2|]. set_solver. }
      rewrite lookup_insert_ne by done. by apply IH.
    + rewrite lookup_app_r in Hi by lia.
      destruct (i - length l)%nat as [|?] eqn:Hd; simplify_eq/=.
      rewrite lookup_insert_eq. do 2 f_equal. lia.
Qed.

End RankAssigner.

(** C9, as stated, fails on a list that repeats a name: in ["a"; "a"] the
    name at position 0 is mapped to 0, the value written for position 1,
    and not to n - 1 - 0 = 1. *)
Lemma rank_of_repeated_name :
  ~ (forall (l : list string) (i : nat) (name : string),
       l !! i = Some name ->
       calculate_labelset_rank l !! name
       = Some (Z.of_nat (length l) - 1 - Z.of_nat i)).
Proof.
  intros H. specialize (H ["a"; "a"] 0%nat "a" eq_refl).
  vm_compute in H. discriminate.
Qed.

(** C9 (amended): for an ordered list of n pairwise distinct labelset
    names, [calculate_labelset_rank] maps the name at 0-based position i
    to n - 1 - i; the first name gets n - 1, the last gets 0, and ranks
    strictly decrease along the list. *)
Theorem calculate_labelset_rank_distinct (input_list : list string) :
  NoDup input_list ->
  let n := Z.of_nat (length input_list) in
  let ranks := calculate_labelset_rank input_list in
  (forall i name, input_list !! i = Some name ->
     ranks !! name = Some (n - 1 - Z.of_nat i))
  /\ (forall name, head input_list = Some name -> ranks !! name = Some (n - 1))
  /\ (forall name, last input_list = Some name -> ranks !! name = Some 0)
  /\ (forall i j a b ra rb,
        input_list !! i = Some a -> input_list !! j = Some b -> (i < j)%nat ->
        ranks !! a = Some ra -> ranks !! b = Some rb -> rb < ra).
Proof.
  intros Hnd n ranks.
  assert (forall i name, input_list !! i = Some name ->
            ranks !! name = Some (n - 1 - Z.of_nat i)) as Hpos.
  { intros i name Hi. by apply rank_fold_lookup. }
  split; [done|]. split; [|split].
  - intros name Hh. rewrite head_lookup in Hh.
    rewrite (Hpos _ _ Hh). f_equal. lia.
  - intros name Hl. rewrite last_lookup in Hl.
    rewrite (Hpos _ _ Hl). f_equal.
    apply lookup_lt_Some in Hl. subst n. lia.
  - intros i j a b ra rb Hi Hj Hij Ha Hb.
    rewrite (Hpos _ _ Hi) in Ha. rewrite (Hpos _ _ Hj) in Hb.
    simplify_eq. lia.
Qed.

Lemma calculate_labelset_rank_distinct_witness :
  let l := ["Class"; "Subclass"; "Cluster"] in
  NoDup l /\
  calculate_labelset_rank l !! "Subclass" = Some 1.
Proof.
  intros l.
  assert (NoDup l) as Hnd by (apply (bool_decide_unpack _); vm_compute; exact I).
  split; [exact Hnd|].
  exact (proj1 (calculate_labelset_rank_distinct l Hnd) 1%nat "Subclass" eq_refl).
Defined.
(** ** Cell-Set Collector *)

Section Dict.
Context {V : Type}.
Implicit Types (d : pydict V) (k : string) (v : V).

Lemma dict_get_set_eq d k v : dict_get (dict_set k v d) k = Some v.
Proof. unfold dict_get, dict_set. simpl. apply lookup_insert_eq. Qed.

Lemma dict_get_set_ne d k k' v :
  k <> k' -> dict_get (dict_set k v d) k' = dict_get d k'.
Proof. intros Hne. unfold dict_get, dict_set. simpl. by apply lookup_insert_ne. Qed.

Lemma dict_wf_empty : dict_wf (@dict_empty V).
Proof.
  split; [constructor|]. intros k. simpl. rewrite lookup_empty.
  split; [by intros ?%elem_of_nil|by intros [? ?]].
Qed.

Lemma dict_wf_set d k v : dict_wf d -> dict_wf (dict_set k v d).
Proof.
  intros [Hnd Hdom]. unfold dict_set. split; simpl.
  - case_decide as Hin; [done|].
    apply NoDup_app. split; [done|]. split; [|apply NoDup_singleton].
    intros x Hx ->%list_elem_of_singleton. done.
  - intros k'. destruct (decide (k = k')) as [<-|Hne].
    + rewrite lookup_insert_eq. split; [eauto|]. intros _.
      case_decide; [done|].
      apply elem_of_app. right. by apply list_elem_of_singleton.
    + rewrite lookup_insert_ne by done. rewrite <- Hdom.
      case_decide; [done|].
      rewrite elem_of_app, list_elem_of_singleton.
      split; [intros [?|?]; [done|congruence]|by left].
Qed.

(** An update of a key that is present leaves the key order alone. *)
Lemma dict_set_present_keys d k v :
  dict_wf d -> is_Some (dict_get d k) -> dict_keys (dict_set k v d) = dict_keys d.
Proof.
  intros [_ Hdom] Hk. unfold dict_set. simpl.
  rewrite decide_True; [done|]. by apply Hdom.
Qed.
End Dict.

Section Collector.
Context {py : PyBuiltins} {am : AccessionManager}.
Implicit Types (obs : DataFrame) (d : pydict Entry) (label k : string).
Implicit Types (v : Labelset) (occs : list (string * Labelset * string)).

Lemma first_occurrence_snoc label occs k v o :
  first_occurrence label occs k v -> first_occurrence label (occs ++ [o]) k v.
Proof.
  intros (before & after & -> & Hfresh).
  exists before, (after ++ [o])%list. split; [|done].
  by rewrite <- app_assoc.
Qed.

Lemma first_occurrence_new label occs k v :
  (forall o, o ∈ occs -> o.2 <> label) ->
  first_occurrence label (occs ++ [(k, v, label)]) k v.
Proof. intros Hfresh. by exists occs, []. Qed.

Lemma merged_cells_snoc obs label occs k v l c :
  merged_cells obs label (occs ++ [(k, v, l)]) c <->
  merged_cells obs label occs c \/
  (l = label /\ exists ids, get_cell_ids obs k label = Ok ids /\ c ∈ ids).
Proof.
  unfold merged_cells. split.
  - intros (k' & v' & ids & Hin & Hids & Hc).
    apply elem_of_app in Hin as [Hin|Hin%list_elem_of_singleton].
    + left. eauto 6.
    + right. simplify_eq. eauto.
  - intros [(k' & v' & ids & Hin & Hids & Hc)|(-> & ids & Hids & Hc)].
    + exists k', v', ids. rewrite elem_of_app. eauto.
    + exists k, v, ids. rewrite elem_of_app, list_elem_of_singleton. eauto.
Qed.

(** A successful step has read the ontology terms and the cell ids, and
    has then merged into the entry of the label or created it. *)
Lemma lookup_step_Ok obs k v label d d' :
  lookup_step obs k v label d = Ok d' ->
  exists ct ids,
    get_cl_annotations_from_anndata obs k label = Ok ct /\
    get_cell_ids obs k label = Ok ids /\
    d' = dict_set label
           match dict_get d label with
           | Some e => update_cell_ids e ids
           | None =>
               {| cell_ids := list_to_set ids;
                  accession := generate_accession_id ids k;
                  rank := labelset_rank v;
                  cell_ontology_term_id := ct.1;
                  cell_ontology_term := ct.2;
                  parent := None;
                  p_accession := None;
                  parent_rank := None |}
           end d.
Proof.
  unfold lookup_step. intros Hstep.
  destruct (get_cl_annotations_from_anndata obs k label) as [ct|]; [|done].
  destruct (get_cell_ids obs k label) as [ids|]; [|done]. simpl in Hstep.
  exists ct, ids. repeat split.
  destruct (dict_get d label); by simplify_eq.
Qed.

Lemma collected_step obs occs d k v label d' :
  collected obs occs d ->
  lookup_step obs k v label d = Ok d' ->
  collected obs (occs ++ [(k, v, label)]) d'.
Proof.
  intros [Hwf Hinv] (ct & ids & Hct & Hids & ->)%lookup_step_Ok.
  split; [by apply dict_wf_set|].
  intros l. destruct (decide (label = l)) as [<-|Hne].
  - rewrite dict_get_set_eq. specialize (Hinv label).
    destruct (dict_get d label) as [e|].
    + destruct Hinv as ((k0 & v0 & ids0 & ct0 & Hfirst & Hfacts) & Hnop & Hcells).
      split; [|split; [done|]].
      * exists k0, v0, ids0, ct0. split; [by apply first_occurrence_snoc|done].
      * intros c. rewrite merged_cells_snoc. simpl.
        rewrite elem_of_union, elem_of_list_to_set, Hcells.
        split; [intros [?|?]; eauto|].
        intros [?|(_ & ids' & Hids' & Hc)]; [by left|right]. congruence.
    + split; [|split; [done|]].
      * exists k, v, ids, ct. split; [by apply first_occurrence_new|done].
      * intros c. rewrite merged_cells_snoc. simpl.
        rewrite elem_of_list_to_set. split; [eauto|].
        intros [(k' & v' & ids' & Hin & _)|(_ & ids' & Hids' & Hc)].
        -- by destruct (Hinv _ Hin).
        -- congruence.
  - rewrite dict_get_set_ne by done. specialize (Hinv l).
    destruct (dict_get d l) as [e|].
    + destruct Hinv as ((k0 & v0 & ids0 & ct0 & Hfirst & Hfacts) & Hnop & Hcells).
      split; [|split; [done|]].
      * exists k0, v0, ids0, ct0. split; [by apply first_occurrence_snoc|done].
      * intros c. rewrite merged_cells_snoc, Hcells.
        split; [by left|]. intros [?|[? _]]; [done|congruence].
    + intros o [Ho|Ho%list_elem_of_singleton]%elem_of_app; [by apply Hinv|].
      by subst o.
Qed.

Lemma collected_loop obs rest : forall visited d d',
  collected obs visited d ->
  lookup_loop obs rest d = Ok d' ->
  collected obs (visited ++ rest) d'.
Proof.
  induction rest as [|[[k v] label] rest IH]; intros visited d d' Hcol Hloop.
  - rewrite app_nil_r. by simplify_eq/=.
  - simpl in Hloop.
    destruct (lookup_step obs k v label d) as [d1|] eqn:Hstep; [|done].
    simpl in Hloop.
    replace (visited ++ (k, v, label) :: rest)%list
      with ((visited ++ [(k, v, label)]) ++ rest)%list by (by rewrite <- app_assoc).
    eapply IH; [|done]. by eapply collected_step.
Qed.

Lemma collected_start obs : collected obs [] dict_empty.
Proof.
  split; [apply dict_wf_empty|]. intros label.
  unfold dict_get. simpl. rewrite lookup_empty. by intros o ?%elem_of_nil.
Qed.

Lemma generate_parent_cell_lookup_collected obs labelset_dict d :
  generate_parent_cell_lookup obs labelset_dict = Ok d ->
  collected obs (occurrences labelset_dict) d.
Proof.
  intros Hgen. apply (collected_loop obs _ [] dict_empty d); [|done].
  apply collected_start.
Qed.

(** The lookup that the collector hands to the hierarchy builder is well
    formed and carries no parent fields. *)
Lemma generate_parent_cell_lookup_unparented obs labelset_dict d :
  generate_parent_cell_lookup obs labelset_dict = Ok d ->
  dict_wf d /\ unparented (dict_store d).
Proof.
  intros [Hwf Hinv]%generate_parent_cell_lookup_collected. split; [done|].
  intros label e Hl. specialize (Hinv label). unfold dict_get in Hinv.
  rewrite Hl in Hinv. by destruct Hinv as (_ & Hnop & _).
Qed.

(** C3 (amended): the occurrences of one label text under several
    labelsets end in a single entry; its cell-id set is the union of the
    cell-id sets of the occurrences, and its rank is the rank of the
    FIRST labelset processed that has the label. *)
Theorem merged_entry_cells_and_rank obs labelset_dict d label (e : Entry) :
  generate_parent_cell_lookup obs labelset_dict = Ok d ->
  dict_get d label = Some e ->
  NoDup (dict_keys d) /\
  (forall c, c ∈ cell_ids e <->
             merged_cells obs label (occurrences labelset_dict) c) /\
  exists k v, first_occurrence label (occurrences labelset_dict) k v /\
              rank e = labelset_rank v.
Proof.
  intros [[Hnd _] Hinv]%generate_parent_cell_lookup_collected He.
  specialize (Hinv label). rewrite He in Hinv.
  destruct Hinv as ((k & v & ids & ct & Hfirst & _ & _ & _ & Hrank & _) & _ & Hcells).
  split; [done|]. split; [done|]. eauto.
Qed.

(** C10: a label that is already in the lookup has only its cell-id set
    updated, by union; accession, rank and both ontology fields stay, no
    other entry and no key position changes.  So in the finished lookup
    accession, rank and ontology fields are those computed at the first
    occurrence of the label, the accession from the cell ids of that
    occurrence alone. *)
Theorem merge_updates_cell_ids_only obs :
  (forall k v label d0 d1 (e0 : Entry),
     dict_wf d0 -> dict_get d0 label = Some e0 ->
     lookup_step obs k v label d0 = Ok d1 ->
     exists ids e1,
       get_cell_ids obs k label = Ok ids /\
       dict_get d1 label = Some e1 /\
       cell_ids e1 = cell_ids e0 ∪ list_to_set ids /\
       accession e1 = accession e0 /\
       rank e1 = rank e0 /\
       cell_ontology_term_id e1 = cell_ontology_term_id e0 /\
       cell_ontology_term e1 = cell_ontology_term e0 /\
       (forall l, l <> label -> dict_get d1 l = dict_get d0 l) /\
       dict_keys d1 = dict_keys d0)
  /\
  (forall labelset_dict d label (e : Entry),
     generate_parent_cell_lookup obs labelset_dict = Ok d ->
     dict_get d label = Some e ->
     exists k v ids ct,
       first_occurrence label (occurrences labelset_dict) k v /\
       get_cell_ids obs k label = Ok ids /\
       get_cl_annotations_from_anndata obs k label = Ok ct /\
       accession e = generate_accession_id ids k /\
       rank e = labelset_rank v /\
       cell_ontology_term_id e = ct.1 /\
       cell_ontology_term e = ct.2).
Proof.
  split.
  - intros k v label d0 d1 e0 Hwf He0 (ct & ids & _ & Hids & ->)%lookup_step_Ok.
    rewrite He0. exists ids, (update_cell_ids e0 ids).
    split; [done|]. split; [apply dict_get_set_eq|].
    repeat (split; [done|]). split.
    + intros l Hl. by apply dict_get_set_ne.
    + apply dict_set_present_keys; [done|]. by rewrite He0.
  - intros labelset_dict d label e [_ Hinv]%generate_parent_cell_lookup_collected He.
    specialize (Hinv label). rewrite He in Hinv.
    by destruct Hinv as (Hfirst & _).
Qed.
End Collector.

(** C3, as stated, fails on [shared_label_table]: "x" is a label of "L1"
    (rank "1") and of "L0" (rank "0"); the labelset processed last is
    "L0", and the merged entry has rank "1". *)
Lemma merged_rank_is_not_the_latest :
  ~ (forall (obs : DataFrame) (labelset_dict d : _) (label k : string)
            (v : Labelset) (e : Entry),
       generate_parent_cell_lookup (H := cpython) (H0 := plain_accessions)
         obs labelset_dict = Ok d ->
       dict_get d label = Some e ->
       last_occurrence label (occurrences labelset_dict) k v ->
       rank e = labelset_rank v).
Proof.
  intros Hclaim.
  destruct (dict_get shared_label_lookup "x") as [e|] eqn:He; [|by vm_compute in He].
  pose (v1 := {| members := ["x"; "z"]; labelset_rank := "1" |}).
  pose (v0 := {| members := ["y"; "x"]; labelset_rank := "0" |}).
  assert (rank e = labelset_rank v0) as Hrank.
  { apply (Hclaim shared_label_table shared_label_labelsets shared_label_lookup
             "x" "L0" v0 e); [vm_compute; reflexivity|exact He|].
    exists [("L1", v1, "x"); ("L1", v1, "z"); ("L0", v0, "y")], [].
    split; [vm_compute; reflexivity|]. by intros o ?%elem_of_nil. }
  vm_compute in He. injection He as <-. discriminate Hrank.
Qed.

Lemma merged_entry_cells_and_rank_witness :
  exists e, dict_get shared_label_lookup "x" = Some e /\
    exists k v, first_occurrence "x" (occurrences shared_label_labelsets) k v /\
                rank e = labelset_rank v.
Proof.
  destruct (dict_get shared_label_lookup "x") as [e|] eqn:He; [|by vm_compute in He].
  exists e. split; [done|].
  exact (proj2 (proj2 (merged_entry_cells_and_rank (py := cpython)
                          (am := plain_accessions) shared_label_table
                          shared_label_labelsets shared_label_lookup "x" e
                          eq_refl He))).
Defined.

Lemma merge_updates_cell_ids_only_witness :
  exists e k v ids,
    dict_get shared_label_lookup "x" = Some e /\
    first_occurrence "x" (occurrences shared_label_labelsets) k v /\
    get_cell_ids (H := cpython) shared_label_table k "x" = Ok ids /\
    accession e = generate_accession_id (AccessionManager := plain_accessions) ids k.
Proof.
  destruct (dict_get shared_label_lookup "x") as [e|] eqn:He; [|by vm_compute in He].
  destruct (proj2 (merge_updates_cell_ids_only (py := cpython)
                     (am := plain_accessions) shared_label_table)
              shared_label_labelsets shared_label_lookup "x" e eq_refl He)
    as (k & v & ids & ct & Hfirst & Hids & _ & Hacc & _).
  exists e, k, v, ids. done.
Defined.

(** On [shared_label_table] the merged entry of "x" holds both cells,
    the accession made from the cell of "L1" alone, and the rank of "L1". *)
Example shared_label_entry :
  (fun e => (elements (cell_ids e), accession e, rank e))
    <$> dict_get shared_label_lookup "x"
  = Some (["c1"; "c2"], "L1:c1", "1").
Proof. vm_compute. reflexivity. Qed.

(** ** Hierarchy Builder *)

Section Hierarchy.
Context {py : PyBuiltins}.
Implicit Types (st : gmap string Entry) (k p key inner_key : string).
Implicit Types (e pe : Entry) (pairs : list (string * string)).

Lemma not_below_unranked (a b : Entry) :
  ~ cell_ids a ⊂ cell_ids b ->
  py_int (rank a) = None \/ py_int (rank b) = None ->
  ~ below a b.
Proof.
  intros Hns Hnone [Hs|(_ & ra & rb & Ha & Hb & _)]; [done|].
  destruct Hnone; congruence.
Qed.

#[global] Instance below_dec (a b : Entry) : Decision (below a b).
Proof.
  destruct (decide (cell_ids a ⊂ cell_ids b)) as [Hs|Hns]; [left; by left|].
  destruct (py_int (rank a)) as [ra|] eqn:Ha;
    [|right; apply not_below_unranked; auto].
  destruct (py_int (rank b)) as [rb|] eqn:Hb;
    [|right; apply not_below_unranked; auto].
  destruct (decide (cell_ids a = cell_ids b)) as [Heq|Hne].
  - destruct (decide (ra < rb)) as [Hlt|Hge].
    + left. right. split; [done|]. exists ra, rb. done.
    + right. intros [?|(_ & ra' & rb' & Ha' & Hb' & Hlt)]; [done|].
      rewrite Ha in Ha'. rewrite Hb in Hb'. simplify_eq. lia.
  - right. intros [?|(? & _)]; done.
Qed.

Lemma below_irrefl (a : Entry) : ~ below a a.
Proof.
  intros [[_ Hs]|(_ & ra & rb & Ha & Hb & Hlt)].
  - by apply Hs.
  - simplify_eq. lia.
Qed.

Lemma below_trans (a b c : Entry) : below a b -> below b c -> below a c.
Proof.
  intros [Hab|(Hab & ra & rb & Ha & Hb & Hlt)] [Hbc|(Hbc & rb' & rc & Hb' & Hc & Hlt')].
  - left. destruct Hab as [Hab Hba], Hbc as [Hbc Hcb].
    split; [by etrans|]. intros Hca. apply Hcb. by etrans.
  - left. by rewrite <- Hbc.
  - left. by rewrite Hab.
  - right. split; [congruence|]. simplify_eq. exists ra, rc. repeat split; [done..|lia].
Qed.

(** [below] looks at the cell set and the rank only. *)
Lemma below_static (a a' b b' : Entry) :
  clear_parent a = clear_parent a' -> clear_parent b = clear_parent b' ->
  below a b -> below a' b'.
Proof.
  intros Ha Hb.
  pose proof (f_equal cell_ids Ha) as Hca. pose proof (f_equal rank Ha) as Hra.
  pose proof (f_equal cell_ids Hb) as Hcb. pose proof (f_equal rank Hb) as Hrb.
  simpl in *. unfold below. by rewrite Hca, Hra, Hcb, Hrb.
Qed.

Lemma clear_update_parent_info (v : Entry) (pk : string) (pv : Entry) :
  clear_parent (update_parent_info v pk pv) = clear_parent v.
Proof. done. Qed.

Lemma well_parented_adopt (st : gmap string Entry) (k p : string) (v pv : Entry) :
  st !! k = Some v -> st !! p = Some pv -> k <> p -> below v pv ->
  well_parented st ->
  well_parented (<[k := update_parent_info v p pv]> st).
Proof.
  intros Hk Hp Hne Hbelow Hwp k' e' p' Hk' Hpar.
  destruct (decide (k' = k)) as [->|Hk'k].
  - rewrite lookup_insert_eq in Hk'. simplify_eq/=.
    split; [done|]. exists pv. rewrite lookup_insert_ne by done.
    repeat split; done.
  - rewrite lookup_insert_ne in Hk' by done.
    destruct (Hwp _ _ _ Hk' Hpar) as (Hne' & pe & Hpe & Hacc & Hrk & Hb).
    split; [done|].
    destruct (decide (p' = k)) as [->|Hp'k].
    + simplify_eq. eexists. rewrite lookup_insert_eq.
      split; [reflexivity|]. done.
    + exists pe. rewrite lookup_insert_ne by done. done.
Qed.

Lemma unparented_well_parented (st : gmap string Entry) :
  unparented st -> well_parented st.
Proof.
  intros Hun k e p Hk Hpar. destruct (Hun _ _ Hk) as (Hnone & _). congruence.
Qed.

Lemma int_rank_Ok (e : Entry) (z : Z) : int_rank e = Ok z -> py_int (rank e) = Some z.
Proof. unfold int_rank. destruct (py_int (rank e)); naive_solver. Qed.

Lemma skip_pair_same (key : string) (v iv : Entry) :
  skip_pair key key v iv = Ok true.
Proof. unfold skip_pair. by rewrite String.eqb_refl. Qed.

Lemma skip_pair_false_ne (key inner_key : string) (v iv : Entry) :
  skip_pair key inner_key v iv = Ok false -> key <> inner_key.
Proof. intros Hs ->. rewrite skip_pair_same in Hs. done. Qed.

Lemma pair_step_effect (st st' : gmap string Entry) (key inner_key : string) :
  pair_step st key inner_key = Ok st' -> pair_effect st key inner_key st'.
Proof.
  unfold pair_step. intros Hstep.
  destruct (st !! key) as [v|] eqn:Hk; [|done].
  destruct (st !! inner_key) as [iv|] eqn:Hik; [|done].
  destruct (skip_pair key inner_key v iv) as [[|]|] eqn:Hskip; simpl in Hstep;
    [simplify_eq; constructor| |done].
  apply skip_pair_false_ne in Hskip.
  destruct (bool_decide (cell_ids v ≠ cell_ids iv) && bool_decide (cell_ids v ⊆ cell_ids iv))
    eqn:Hsub.
  { apply andb_prop in Hsub as [Hne%bool_decide_eq_true Hss%bool_decide_eq_true].
    simplify_eq. eapply effect_adopt; eauto. left. set_solver. }
  case_bool_decide as Heq; [|simplify_eq; constructor].
  destruct (int_rank iv) as [ri|] eqn:Hri; [|done].
  destruct (int_rank v) as [rv|] eqn:Hrv; [|done]. simpl in Hstep.
  apply int_rank_Ok in Hri, Hrv.
  destruct (ri <? rv) eqn:Hlt1.
  { apply Z.ltb_lt in Hlt1. simplify_eq.
    eapply effect_adopt; eauto. right. eauto 8. }
  destruct (rv <? ri) eqn:Hlt2; [|done].
  apply Z.ltb_lt in Hlt2. simplify_eq.
  eapply effect_adopt; eauto. right. eauto 8.
Qed.

Lemma pair_effect_well_parented st key inner_key st' :
  pair_effect st key inner_key st' -> well_parented st -> well_parented st'.
Proof.
  intros [|child par v pv _ Hne Hc Hp Hb] Hwp; [done|].
  by apply well_parented_adopt.
Qed.

Lemma pair_effect_static st key inner_key st' :
  pair_effect st key inner_key st' -> clear_parent <$> st' = clear_parent <$> st.
Proof.
  intros [|child par v pv _ Hne Hc Hp Hb]; [done|].
  rewrite fmap_insert, clear_update_parent_info.
  apply insert_id. by rewrite lookup_fmap, Hc.
Qed.

Lemma pair_effect_keeps_parent st key inner_key st' k :
  pair_effect st key inner_key st' ->
  is_Some (parent_of st k) -> is_Some (parent_of st' k).
Proof.
  intros [|child par v pv _ Hne Hc Hp Hb] Hsome; [done|].
  unfold parent_of in *. destruct (decide (k = child)) as [->|Hk].
  - rewrite lookup_insert_eq. simpl. eauto.
  - by rewrite lookup_insert_ne.
Qed.

(** Whatever every possible effect of a pair preserves holds after the
    whole scan. *)
Lemma run_pairs_preserves (P : gmap string Entry -> Prop) :
  (forall st key inner_key st', pair_effect st key inner_key st' -> P st -> P st') ->
  forall pairs st st', run_pairs pairs st = Ok st' -> P st -> P st'.
Proof.
  intros Hstep pairs. induction pairs as [|[key inner_key] pairs IH]; intros st st' Hrun HP.
  - by simplify_eq/=.
  - simpl in Hrun.
    destruct (pair_step st key inner_key) as [st1|] eqn:Hps; [|done].
    simpl in Hrun. eapply IH; [done|].
    eapply Hstep; [|done]. by eapply pair_step_effect.
Qed.

Lemma run_pairs_app pairs1 pairs2 st :
  run_pairs (pairs1 ++ pairs2) st = run_pairs pairs1 st ≫= run_pairs pairs2.
Proof.
  revert st. induction pairs1 as [|[key inner_key] pairs1 IH]; intros st; [done|].
  simpl. destruct (pair_step st key inner_key); [apply IH|done].
Qed.

Lemma run_pairs_well_parented pairs st st' :
  run_pairs pairs st = Ok st' -> well_parented st -> well_parented st'.
Proof.
  apply (run_pairs_preserves well_parented).
  intros ????. apply pair_effect_well_parented.
Qed.

Lemma run_pairs_static pairs st st' :
  run_pairs pairs st = Ok st' -> clear_parent <$> st' = clear_parent <$> st.
Proof.
  intros Hrun.
  apply (run_pairs_preserves (fun s => clear_parent <$> s = clear_parent <$> st))
    with (pairs := pairs) (st := st); [|done..].
  intros s key inner_key s' Heff <-. by eapply pair_effect_static.
Qed.

Lemma run_pairs_keeps_parent pairs st st' k :
  run_pairs pairs st = Ok st' ->
  is_Some (parent_of st k) -> is_Some (parent_of st' k).
Proof.
  apply (run_pairs_preserves (fun s => is_Some (parent_of s k))).
  intros ????. apply pair_effect_keeps_parent.
Qed.

Lemma static_lookup st st' k e :
  clear_parent <$> st' = clear_parent <$> st -> st !! k = Some e ->
  exists e', st' !! k = Some e' /\ clear_parent e' = clear_parent e.
Proof.
  intros Heq Hk. apply (f_equal (fun m => m !! k)) in Heq.
  rewrite !lookup_fmap, Hk in Heq. simpl in Heq.
  destruct (st' !! k) as [e'|]; [|done].
  apply (inj Some) in Heq. eauto.
Qed.

(** Parent links climb in [below]. *)
Lemma parent_link_below st k p :
  well_parented st -> parent_link st k p ->
  exists e pe, st !! k = Some e /\ st !! p = Some pe /\ below e pe.
Proof.
  unfold parent_link, parent_of. intros Hwp Hl.
  apply bind_Some in Hl as (e & Hk & Hpar).
  destruct (Hwp _ _ _ Hk Hpar) as (_ & pe & Hp & _ & _ & Hb). eauto.
Qed.

Lemma ancestor_below st k p :
  well_parented st -> tc (parent_link st) k p ->
  exists e pe, st !! k = Some e /\ st !! p = Some pe /\ below e pe.
Proof.
  intros Hwp Htc. induction Htc as [k p Hl|k m p Hl _ IH].
  - by apply parent_link_below.
  - destruct (parent_link_below _ _ _ Hwp Hl) as (e & me & Hk & Hm & Hb).
    destruct IH as (me' & pe & Hm' & Hp & Hb'). simplify_eq.
    exists e, pe. eauto using below_trans.
Qed.

Lemma well_parented_acyclic st : well_parented st -> acyclic st.
Proof.
  intros Hwp k Htc.
  destruct (ancestor_below _ _ _ Hwp Htc) as (e & e' & Hk & Hk' & Hb).
  simplify_eq. by eapply below_irrefl.
Qed.

Lemma count_above_parent st k e pe :
  st !! k = Some pe -> below e pe ->
  (count_above st pe < count_above st e)%nat.
Proof.
  intros Hk Hb. unfold count_above.
  rewrite <- (list_filter_filter_l (fun kv => below pe kv.2) (fun kv => below e kv.2))
    by (intros kv; apply below_trans; done).
  apply (length_filter_lt _ _ (k, pe)).
  - apply list_elem_of_filter. split; [done|]. by apply elem_of_map_to_list.
  - apply below_irrefl.
Qed.

Lemma count_above_lt_size st k e :
  st !! k = Some e -> (count_above st e < size st)%nat.
Proof.
  intros Hk. unfold count_above. rewrite <- length_map_to_list.
  apply (length_filter_lt _ _ (k, e)).
  - by apply elem_of_map_to_list.
  - apply below_irrefl.
Qed.

Lemma climb_reaches_root st :
  well_parented st ->
  forall fuel k e, st !! k = Some e -> (count_above st e < fuel)%nat ->
    exists root re, climb fuel st k = Some root /\ st !! root = Some re /\ parent re = None.
Proof.
  intros Hwp fuel. induction fuel as [|fuel IH]; intros k e Hk Hlt; [lia|].
  simpl. rewrite Hk. destruct (parent e) as [p|] eqn:Hpar; [|eauto].
  destruct (Hwp _ _ _ Hk Hpar) as (_ & pe & Hp & _ & _ & Hb).
  apply (IH p pe Hp).
  pose proof (count_above_parent st p e pe Hp Hb). lia.
Qed.

Lemma add_parent_cell_hierarchy_Ok (d d' : pydict Entry) :
  add_parent_cell_hierarchy d = Ok d' ->
  dict_keys d' = dict_keys d /\
  run_pairs (product2 (dict_keys d)) (dict_store d) = Ok (dict_store d').
Proof.
  unfold add_parent_cell_hierarchy. intros Hrun.
  destruct (run_pairs _ _) as [st'|]; by simplify_eq/=.
Qed.

(** C2 (amended): after [add_parent_cell_hierarchy] returns on a lookup
    handed in without parent fields, every entry A with a recorded parent
    B has a cell-id set that is a strict subset of B's, or the two sets
    are identical and B's rank is strictly GREATER than A's rank. *)
Theorem parent_is_superset_or_higher_rank (d d' : pydict Entry)
    (a b : string) (ea : Entry) :
  unparented (dict_store d) ->
  add_parent_cell_hierarchy d = Ok d' ->
  dict_get d' a = Some ea -> parent ea = Some b ->
  exists eb, dict_get d' b = Some eb /\
    (cell_ids ea ⊂ cell_ids eb \/
     (cell_ids ea = cell_ids eb /\
      exists ra rb, py_int (rank ea) = Some ra /\ py_int (rank eb) = Some rb /\
                    ra < rb)).
Proof.
  intros Hun [_ Hrun]%add_parent_cell_hierarchy_Ok Ha Hpar.
  apply run_pairs_well_parented in Hrun; [|by apply unparented_well_parented].
  destruct (Hrun _ _ _ Ha Hpar) as (_ & eb & Hb & _ & _ & Hbelow).
  exists eb. split; [done|]. exact Hbelow.
Qed.

(** C7: after [add_parent_cell_hierarchy] returns without raising (on a
    lookup handed in without parent fields) no entry is its own parent or
    its own ancestor, and the walk along parent links from any entry ends
    at an entry without parent within as many steps as there are entries. *)
Theorem hierarchy_is_acyclic (d d' : pydict Entry) :
  unparented (dict_store d) ->
  add_parent_cell_hierarchy d = Ok d' ->
  (forall k, parent_of (dict_store d') k <> Some k) /\
  acyclic (dict_store d') /\
  (forall k, is_Some (dict_get d' k) ->
     exists root, climb (size (dict_store d')) (dict_store d') k = Some root /\
                  parent_of (dict_store d') root = None).
Proof.
  intros Hun [_ Hrun]%add_parent_cell_hierarchy_Ok.
  apply run_pairs_well_parented in Hrun; [|by apply unparented_well_parented].
  pose proof (well_parented_acyclic _ Hrun) as Hacyc.
  split; [|split; [done|]].
  - intros k Hself. apply (Hacyc k). by apply tc_once.
  - intros k [e Hk].
    destruct (climb_reaches_root _ Hrun (size (dict_store d')) k e Hk)
      as (root & re & Hclimb & Hroot & Hnone).
    { by eapply count_above_lt_size. }
    exists root. split; [done|]. unfold parent_of. by rewrite Hroot.
Qed.

Lemma skip_pair_true_parented key inner_key (v iv : Entry) :
  key <> inner_key -> skip_pair key inner_key v iv = Ok true -> is_Some (parent v).
Proof.
  unfold skip_pair, truthy. intros Hne Hskip.
  destruct (String.eqb_spec key inner_key); [done|].
  destruct (parent v); [eauto|done].
Qed.

(** The tie-break of one pair: with equal cell sets the entry of lower
    rank is the child, whichever of the two the outer loop holds. *)
Lemma tie_break_pair st a b (va vb : Entry) (ra rb : Z) :
  st !! a = Some va -> st !! b = Some vb ->
  cell_ids va = cell_ids vb ->
  py_int (rank va) = Some ra -> py_int (rank vb) = Some rb -> ra < rb ->
  (skip_pair a b va vb = Ok false ->
     pair_step st a b = Ok (<[a := update_parent_info va b vb]> st)) /\
  (skip_pair b a vb va = Ok false ->
     pair_step st b a = Ok (<[a := update_parent_info va b vb]> st)).
Proof.
  intros Ha Hb Hcells Hra Hrb Hlt. unfold pair_step, int_rank.
  rewrite Ha, Hb. split; intros ->; simpl.
  - rewrite Hcells, Hra, Hrb.
    rewrite (bool_decide_eq_false_2 (_ ≠ _)) by naive_solver. simpl.
    rewrite bool_decide_eq_true_2 by done. simpl.
    assert ((rb <? ra) = false) as -> by (apply Z.ltb_ge; lia).
    assert ((ra <? rb) = true) as -> by (apply Z.ltb_lt; lia). done.
  - rewrite Hcells, Hra, Hrb.
    rewrite (bool_decide_eq_false_2 (_ ≠ _)) by naive_solver. simpl.
    rewrite bool_decide_eq_true_2 by done. simpl.
    assert ((ra <? rb) = true) as -> by (apply Z.ltb_lt; lia). done.
Qed.

(** C1 (amended): for two distinct entries A and B of a lookup handed in
    without parent fields, with exactly equal cell-id sets and A's integer
    rank strictly lower than B's, the entry of strictly HIGHER rank is the
    parent and the one of strictly lower rank the child.  Whenever the
    loop examines the two, in either order, and the guard does not skip
    the pair, A's parent, p_accession and parent_rank are set to B's label,
    accession and rank; when the function returns, A has a parent whose
    accession and rank are the recorded ones (B itself if the two are the
    only entries), and B's parent is not A. *)
Theorem tie_break_higher_rank_is_parent (d : pydict Entry) (a b : string)
    (ea eb : Entry) (ra rb : Z) :
  unparented (dict_store d) ->
  a ∈ dict_keys d -> b ∈ dict_keys d ->
  dict_get d a = Some ea -> dict_get d b = Some eb ->
  cell_ids ea = cell_ids eb ->
  py_int (rank ea) = Some ra -> py_int (rank eb) = Some rb -> ra < rb ->
  (forall st va vb,
     st !! a = Some va -> st !! b = Some vb ->
     clear_parent va = clear_parent ea -> clear_parent vb = clear_parent eb ->
     (skip_pair a b va vb = Ok false ->
        pair_step st a b = Ok (<[a := update_parent_info va b vb]> st)) /\
     (skip_pair b a vb va = Ok false ->
        pair_step st b a = Ok (<[a := update_parent_info va b vb]> st)))
  /\
  (forall d', add_parent_cell_hierarchy d = Ok d' ->
     (exists ea' p pe,
        dict_get d' a = Some ea' /\ parent ea' = Some p /\
        dict_get d' p = Some pe /\
        p_accession ea' = Some (accession pe) /\
        parent_rank ea' = Some (rank pe) /\
        ((forall k, is_Some (dict_get d k) -> k = a \/ k = b) -> p = b))
     /\ parent_of (dict_store d') b <> Some a).
Proof.
  intros Hun Hain Hbin Ha Hb Hcells Hra Hrb Hlt.
  assert (a <> b) as Hne by (intros ->; unfold dict_get in *; simplify_eq; lia).
  split.
  { intros st va vb Hva Hvb Hsa Hsb.
    pose proof (f_equal cell_ids Hsa) as Hca. pose proof (f_equal rank Hsa) as Hrka.
    pose proof (f_equal cell_ids Hsb) as Hcb. pose proof (f_equal rank Hsb) as Hrkb.
    simpl in *. apply (tie_break_pair st a b va vb ra rb); congruence. }
  intros d' [_ Hrun]%add_parent_cell_hierarchy_Ok.
  unfold dict_get in *.
  pose proof (run_pairs_well_parented _ _ _ Hrun (unparented_well_parented _ Hun)) as Hwp.
  pose proof (run_pairs_static _ _ _ Hrun) as Hstatic.
  (* the pair (a, b) is on the path of the scan *)
  assert ((a, b) ∈ product2 (dict_keys d)) as Hpair.
  { unfold product2. rewrite list_elem_of_In. apply in_prod; by rewrite <- list_elem_of_In. }
  apply list_elem_of_split in Hpair as (pre & post & Hsplit).
  rewrite Hsplit, run_pairs_app in Hrun.
  destruct (run_pairs pre (dict_store d)) as [st1|] eqn:Hpre; [|done].
  simpl in Hrun.
  destruct (pair_step st1 a b) as [st2|] eqn:Hstep; [|done]. simpl in Hrun.
  pose proof (run_pairs_static _ _ _ Hpre) as Hstatic1.
  destruct (static_lookup _ _ _ _ Hstatic1 Ha) as (va & Hva & Hsa).
  destruct (static_lookup _ _ _ _ Hstatic1 Hb) as (vb & Hvb & Hsb).
  assert (is_Some (parent_of st2 a)) as Hsome2.
  { pose proof (f_equal cell_ids Hsa) as Hca. pose proof (f_equal rank Hsa) as Hrka.
    pose proof (f_equal cell_ids Hsb) as Hcb. pose proof (f_equal rank Hsb) as Hrkb.
    simpl in *.
    destruct (skip_pair a b va vb) as [[|]|] eqn:Hskip.
    - unfold pair_step in Hstep. rewrite Hva, Hvb, Hskip in Hstep. simplify_eq/=.
      unfold parent_of. rewrite Hva. simpl.
      by eapply skip_pair_true_parented.
    - destruct (tie_break_pair st1 a b va vb ra rb) as [Hstep' _]; try congruence.
      rewrite (Hstep' Hskip) in Hstep. simplify_eq.
      unfold parent_of. rewrite lookup_insert_eq. simpl. eauto.
    - unfold pair_step in Hstep. rewrite Hva, Hvb, Hskip in Hstep. done. }
  pose proof (run_pairs_keeps_parent _ _ _ a Hrun Hsome2) as [p Hp].
  unfold parent_of in Hp. apply bind_Some in Hp as (ea' & Hea' & Hpar).
  destruct (Hwp _ _ _ Hea' Hpar) as (Hpa & pe & Hpe & Hacc & Hrk & _).
  split.
  - exists ea', p, pe. repeat split; try done.
    intros Honly.
    assert (is_Some (dict_store d !! p)) as Hpd.
    { apply (f_equal (fun m => m !! p)) in Hstatic.
      rewrite !lookup_fmap, Hpe in Hstatic. simpl in Hstatic.
      destruct (dict_store d !! p); [eauto|done]. }
    destruct (Honly p Hpd); [done|done].
  - intros Hb'. unfold parent_of in Hb'.
    apply bind_Some in Hb' as (eb' & Heb' & Hparb).
    destruct (Hwp _ _ _ Heb' Hparb) as (_ & ea'' & Hea'' & _ & _ & Hbelow).
    destruct (static_lookup _ _ _ _ Hstatic Ha) as (x & Hx & Hsx).
    destruct (static_lookup _ _ _ _ Hstatic Hb) as (y & Hy & Hsy).
    rewrite Hx in Hea''. rewrite Hy in Heb'.
    injection Hea'' as <-. injection Heb' as <-.
    apply (below_static _ _ _ _ Hsy Hsx) in Hbelow.
    destruct Hbelow as [Hs|(_ & r1 & r2 & H1 & H2 & Hlt')].
    + rewrite Hcells in Hs. destruct Hs as [_ Hs]. by apply Hs.
    + simplify_eq. lia.
Qed.
End Hierarchy.

(** Closed facts about concrete lookups are settled by evaluation. *)
Ltac by_compute := apply (bool_decide_unpack _); vm_compute; exact I.

(** C1, as stated, fails on scenario 2 of the design: "beta" (rank 1)
    and "alpha" (rank 3) share the cell set {5,6,7}, and after the run
    "alpha" has no parent at all, so the entry of lower rank has not
    become the parent of the entry of higher rank. *)
Lemma tie_break_lower_rank_not_parent :
  ~ (forall (d d' : pydict Entry) (a b : string) (ea eb : Entry) (ra rb : Z),
       unparented (dict_store d) ->
       a ∈ dict_keys d -> b ∈ dict_keys d -> a <> b ->
       dict_get d a = Some ea -> dict_get d b = Some eb ->
       cell_ids ea = cell_ids eb ->
       decimal_int (rank ea) = Some ra -> decimal_int (rank eb) = Some rb ->
       ra < rb ->
       add_parent_cell_hierarchy (H := cpython) d = Ok d' ->
       exists eb', dict_get d' b = Some eb' /\
         parent eb' = Some a /\
         p_accession eb' = Some (accession ea) /\
         parent_rank eb' = Some (rank ea)).
Proof.
  intros Hclaim.
  destruct (Hclaim two_ranks two_ranks_done "beta" "alpha"
              (entry ["5"; "6"; "7"] "acc_beta" "1")
              (entry ["5"; "6"; "7"] "acc_alpha" "3") 1 3)
    as (eb' & Hget & Hpar & _); try by_compute; try (vm_compute; reflexivity).
  vm_compute in Hget. injection Hget as <-. discriminate Hpar.
Qed.

Lemma tie_break_higher_rank_is_parent_witness :
  (exists ea', dict_get two_ranks_done "beta" = Some ea' /\
               parent ea' = Some "alpha" /\
               p_accession ea' = Some "acc_alpha" /\
               parent_rank ea' = Some "3")
  /\ parent_of (dict_store two_ranks_done) "alpha" <> Some "beta".
Proof.
  assert (unparented (dict_store two_ranks)) as Hun by by_compute.
  assert ("beta" ∈ dict_keys two_ranks) as Hb by by_compute.
  assert ("alpha" ∈ dict_keys two_ranks) as Ha by by_compute.
  destruct (tie_break_higher_rank_is_parent (py := cpython) two_ranks
              "beta" "alpha"
              (entry ["5"; "6"; "7"] "acc_beta" "1")
              (entry ["5"; "6"; "7"] "acc_alpha" "3") 1 3
              Hun Hb Ha eq_refl eq_refl eq_refl eq_refl eq_refl eq_refl)
    as [_ Hrun].
  destruct (Hrun two_ranks_done eq_refl)
    as [(ea' & p & pe & Hea' & Hpar & Hpe & Hacc & Hrk & Honly) Hnot].
  split; [|exact Hnot].
  assert (p = "alpha") as ->.
  { apply Honly. intros k [e Hk]. unfold dict_get in Hk.
    destruct (decide (k = "beta")) as [|Hk1]; [by left|].
    destruct (decide (k = "alpha")) as [|Hk2]; [by right|].
    exfalso. revert Hk. unfold two_ranks, dict_of_list. simpl.
    rewrite lookup_insert_ne by done. rewrite lookup_insert_ne by done.
    by rewrite lookup_empty. }
  exists ea'. split; [done|]. split; [done|].
  vm_compute in Hpe. injection Hpe as <-. done.
Defined.

(** C2, as stated, fails on the same lookup: "beta" ends with parent
    "alpha", the two cell sets are identical, and the parent's rank 3 is
    not strictly less than the child's rank 1. *)
Lemma equal_sets_parent_rank_not_lower :
  ~ (forall (d d' : pydict Entry) (a b : string) (ea : Entry),
       unparented (dict_store d) ->
       add_parent_cell_hierarchy (H := cpython) d = Ok d' ->
       dict_get d' a = Some ea -> parent ea = Some b ->
       exists eb, dict_get d' b = Some eb /\
         (cell_ids ea ⊂ cell_ids eb \/
          (cell_ids ea = cell_ids eb /\
           exists ra rb, decimal_int (rank ea) = Some ra /\
                         decimal_int (rank eb) = Some rb /\ rb < ra))).
Proof.
  intros Hclaim.
  destruct (Hclaim two_ranks two_ranks_done "beta" "alpha"
              (update_parent_info (entry ["5"; "6"; "7"] "acc_beta" "1") "alpha"
                 (entry ["5"; "6"; "7"] "acc_alpha" "3")))
    as (eb & Hget & Hrel); try by_compute; try (vm_compute; reflexivity).
  vm_compute in Hget. injection Hget as <-.
  destruct Hrel as [[_ Hstrict]|(_ & ra & rb & Hra & Hrb & Hlt)].
  - apply Hstrict. done.
  - vm_compute in Hra, Hrb. simplify_eq. lia.
Qed.

Lemma parent_is_superset_or_higher_rank_witness :
  exists eb, dict_get two_ranks_done "alpha" = Some eb /\
    (list_to_set ["5"; "6"; "7"] ⊂ cell_ids eb \/
     (list_to_set ["5"; "6"; "7"] = cell_ids eb /\
      exists ra rb, decimal_int "1" = Some ra /\ decimal_int (rank eb) = Some rb /\
                    ra < rb)).
Proof.
  assert (unparented (dict_store two_ranks)) as Hun by by_compute.
  exact (parent_is_superset_or_higher_rank (py := cpython)
           two_ranks two_ranks_done "beta" "alpha"
           (update_parent_info (entry ["5"; "6"; "7"] "acc_beta" "1") "alpha"
              (entry ["5"; "6"; "7"] "acc_alpha" "3"))
           Hun eq_refl eq_refl eq_refl).
Defined.

Lemma hierarchy_is_acyclic_witness :
  acyclic (dict_store two_ranks_done) /\
  exists root, climb 2 (dict_store two_ranks_done) "beta" = Some root.
Proof.
  assert (unparented (dict_store two_ranks)) as Hun by by_compute.
  destruct (hierarchy_is_acyclic (py := cpython) two_ranks two_ranks_done Hun eq_refl)
    as (_ & Hacyclic & Hclimb).
  split; [exact Hacyclic|].
  destruct (Hclimb "beta") as (root & Hroot & _).
  - eexists. vm_compute. reflexivity.
  - exists root. exact Hroot.
Defined.

(** *** Order of visit *)

(** C4: the two lookups hold the same three entries (one cell set at
    ranks 0, 1, 2) and differ in key order only, yet "X" ends under "Z"
    in one and under "Y" in the other.  The pair ("Z", "X") rewrites the
    parent of "X" without looking at the parent "X" already has. *)
Theorem parents_depend_on_visiting_order :
  dict_store three_levels_up = dict_store three_levels_down /\
  parents_of (add_parent_cell_hierarchy (H := cpython) three_levels_up)
  = Ok [("X", Some "Z"); ("Y", Some "Z"); ("Z", None)] /\
  parents_of (add_parent_cell_hierarchy (H := cpython) three_levels_down)
  = Ok [("Z", None); ("Y", Some "Z"); ("X", Some "Y")].
Proof. repeat split; vm_compute; reflexivity. Qed.

(** The inner entry of a tie is adopted whatever parent it had. *)
Lemma tie_break_overwrites_inner `{PyBuiltins} (st : gmap string Entry)
    (key inner_key : string) (v iv : Entry) (rv ri : Z) :
  st !! key = Some v -> st !! inner_key = Some iv ->
  cell_ids v = cell_ids iv ->
  py_int (rank v) = Some rv -> py_int (rank iv) = Some ri -> ri < rv ->
  skip_pair key inner_key v iv = Ok false ->
  pair_step st key inner_key
  = Ok (<[inner_key := update_parent_info iv key v]> st).
Proof.
  intros Hk Hik Hcells Hrv Hri Hlt Hskip.
  by apply (tie_break_pair st inner_key key iv v ri rv).
Qed.

(** *** The guard *)

(** When the guard holds, the pair assigns nothing. *)
Lemma skipped_pair_assigns_nothing `{PyBuiltins} (st : gmap string Entry)
    (key inner_key : string) (v iv : Entry) :
  st !! key = Some v -> st !! inner_key = Some iv ->
  skip_pair key inner_key v iv = Ok true ->
  pair_step st key inner_key = Ok st.
Proof. intros Hk Hik Hskip. unfold pair_step. by rewrite Hk, Hik, Hskip. Qed.

(** The guard is the comparison of the two rank strings as text. *)
Lemma skip_pair_parented (key inner_key p pr : string) (v iv : Entry) :
  key <> inner_key -> parent v = Some p -> p <> "" -> parent_rank v = Some pr ->
  skip_pair key inner_key v iv = Ok (String.leb pr (rank iv)).
Proof.
  intros Hne Hp Hp' Hpr. unfold skip_pair, truthy.
  destruct (String.eqb_spec key inner_key); [done|].
  rewrite Hp, Hpr. by destruct (String.eqb_spec p "").
Qed.

(** C5: in the lookup [eleven_ranks] the scan reaches the pair ("A", "B")
    with "A" under the parent "P" of recorded rank "9"; "B" has rank "10",
    and 9 <= 10, but "9" <= "10" is false for strings, so the pair is not
    skipped and "B" displaces "P" as the parent of "A". *)
Theorem guard_compares_ranks_as_text :
  let pairs := product2 (dict_keys eleven_ranks) in
  pairs !! 6%nat = Some ("A", "B") /\
  exists st va vb st',
    run_pairs (H := cpython) (take 6 pairs) (dict_store eleven_ranks) = Ok st /\
    st !! "A" = Some va /\ st !! "B" = Some vb /\
    parent va = Some "P" /\ parent_rank va = Some "9" /\ rank vb = "10" /\
    decimal_int "9" = Some 9 /\ decimal_int "10" = Some 10 /\
    skip_pair "A" "B" va vb = Ok false /\
    pair_step (H := cpython) st "A" "B" = Ok st' /\
    parent_of st' "A" = Some "B" /\
    parents_of (add_parent_cell_hierarchy (H := cpython) eleven_ranks)
    = Ok [("B", None); ("P", Some "B"); ("A", Some "B")].
Proof.
  intros pairs. split; [reflexivity|].
  eexists _, _, _, _.
  split; [vm_compute; reflexivity|].
  split; [vm_compute; reflexivity|].
  split; [vm_compute; reflexivity|].
  repeat split; vm_compute; reflexivity.
Qed.

(** The collector itself builds such a lookup.  Two cells under eleven
    labelsets: "A" (rank "0") and "P" (rank "9") select the same cell, and
    "A" ends under "B" (rank "10") all the same. *)
Lemma eleven_labelsets_end_to_end :
  ranks_of (example_lookup (H := cpython) (H0 := plain_accessions)
              eleven_labelset_table eleven_labelsets)
  = Ok [("B", "10"); ("P", "9"); ("Q", "9"); ("A", "0")] /\
  same_cells (example_lookup (H := cpython) (H0 := plain_accessions)
                eleven_labelset_table eleven_labelsets) "A" "P" = true /\
  parents_of (example_hierarchy (H := cpython) (H0 := plain_accessions)
                eleven_labelset_table eleven_labelsets)
  = Ok [("B", None); ("P", Some "B"); ("Q", Some "B"); ("A", Some "B")].
Proof. repeat split; vm_compute; reflexivity. Qed.

(** *** Ambiguity *)

(** A pair with equal cell sets and equal ranks that the guard lets
    through raises, and the message names both labels. *)
Lemma ambiguous_pair_raises `{PyBuiltins} (st : gmap string Entry)
    (key inner_key : string) (v iv : Entry) (r : Z) :
  st !! key = Some v -> st !! inner_key = Some iv ->
  cell_ids v = cell_ids iv ->
  py_int (rank v) = Some r -> py_int (rank iv) = Some r ->
  skip_pair key inner_key v iv = Ok false ->
  pair_step st key inner_key
  = Raise (ValueError (ambiguity_message key inner_key)).
Proof.
  intros Hk Hik Hcells Hrv Hri Hskip. unfold pair_step, int_rank.
  rewrite Hk, Hik, Hskip. simpl. rewrite Hcells, Hrv, Hri.
  rewrite (bool_decide_eq_false_2 (_ ≠ _)) by naive_solver. simpl.
  rewrite bool_decide_eq_true_2 by done. simpl.
  by rewrite Z.ltb_irrefl.
Qed.

(** Neither of two such entries is ever recorded as the other's parent. *)
Lemma ambiguous_never_linked `{PyBuiltins} (d d' : pydict Entry) (a b : string)
    (ea eb : Entry) (r : Z) :
  unparented (dict_store d) ->
  dict_get d a = Some ea -> dict_get d b = Some eb ->
  cell_ids ea = cell_ids eb ->
  py_int (rank ea) = Some r -> py_int (rank eb) = Some r ->
  add_parent_cell_hierarchy d = Ok d' ->
  parent_of (dict_store d') a <> Some b.
Proof.
  intros Hun Ha Hb Hcells Hra Hrb [_ Hrun]%add_parent_cell_hierarchy_Ok Hlink.
  unfold dict_get in *.
  pose proof (run_pairs_well_parented _ _ _ Hrun (unparented_well_parented _ Hun)) as Hwp.
  pose proof (run_pairs_static _ _ _ Hrun) as Hstatic.
  unfold parent_of in Hlink. apply bind_Some in Hlink as (ea' & Hea' & Hpar).
  destruct (Hwp _ _ _ Hea' Hpar) as (_ & eb' & Heb' & _ & _ & Hbelow).
  destruct (static_lookup _ _ _ _ Hstatic Ha) as (x & Hx & Hsx).
  destruct (static_lookup _ _ _ _ Hstatic Hb) as (y & Hy & Hsy).
  rewrite Hx in Hea'. rewrite Hy in Heb'.
  injection Hea' as <-. injection Heb' as <-.
  apply (below_static _ _ _ _ Hsx Hsy) in Hbelow.
  destruct Hbelow as [Hs|(_ & r1 & r2 & H1 & H2 & Hlt)].
  - rewrite Hcells in Hs. destruct Hs as [_ Hs]. by apply Hs.
  - rewrite Hra in H1. rewrite Hrb in H2. simplify_eq. lia.
Qed.

(** C6: "t" and "T" have the same cell set and the same rank "9".  Each
    is first put under "P" (rank "10"); the guard then compares "10" <= "9"
    as text, finds it true, and skips both ("t", "T") and ("T", "t"): the
    run returns without any error. *)
Theorem ambiguity_goes_unreported :
  (exists et eT,
     dict_get case_twins "t" = Some et /\ dict_get case_twins "T" = Some eT /\
     cell_ids et = cell_ids eT /\ rank et = rank eT) /\
  parents_of (add_parent_cell_hierarchy (H := cpython) case_twins)
  = Ok [("P", None); ("t", Some "P"); ("T", Some "P")].
Proof.
  split; [|vm_compute; reflexivity].
  eexists _, _. split; [vm_compute; reflexivity|].
  split; [vm_compute; reflexivity|]. split; reflexivity.
Qed.

(** With one-digit ranks the same happens under a superset whose rank is
    not above that of the twins. *)
Lemma ambiguity_masked_by_lower_rank_superset :
  parents_of (add_parent_cell_hierarchy (H := cpython) twins_under_lower_rank)
  = Ok [("P", None); ("A", Some "P"); ("B", Some "P")].
Proof. vm_compute; reflexivity. Qed.

(** One table, read with two labelsets and with eleven.  The labels "t"
    and "T" select the same cells at the same rank both times; with the
    ranks "1" and "0" the run raises, with "10" and "9" it returns. *)
Lemma twin_labels_end_to_end :
  same_cells (example_lookup (H := cpython) (H0 := plain_accessions)
                twin_table twin_labelsets_two) "t" "T" = true /\
  ranks_of (example_lookup (H := cpython) (H0 := plain_accessions)
              twin_table twin_labelsets_two)
  = Ok [("P", "1"); ("t", "0"); ("T", "0"); ("u", "0")] /\
  example_hierarchy (H := cpython) (H0 := plain_accessions)
    twin_table twin_labelsets_two
  = Raise (ValueError (ambiguity_message "t" "T")) /\
  same_cells (example_lookup (H := cpython) (H0 := plain_accessions)
                twin_table twin_labelsets_eleven) "t" "T" = true /\
  ranks_of (example_lookup (H := cpython) (H0 := plain_accessions)
              twin_table twin_labelsets_eleven)
  = Ok [("P", "10"); ("t", "9"); ("T", "9"); ("u", "9")] /\
  parents_of (example_hierarchy (H := cpython) (H0 := plain_accessions)
                twin_table twin_labelsets_eleven)
  = Ok [("P", None); ("t", Some "P"); ("T", Some "P"); ("u", Some "P")].
Proof. repeat split; vm_compute; reflexivity. Qed.

(** ** Annotation Enricher *)

Section Enricher.
Variable parent_cell_look_up : pydict Entry.
Implicit Types (a : Annotation) (l : list Annotation) (i j : nat).

Local Abbreviation enrich' := (enrich parent_cell_look_up).

(** The step for one position leaves every other record as it was. *)
Lemma enrich_at_other i j l :
  i <> j -> enrich_at parent_cell_look_up i l !! j = l !! j.
Proof.
  intros Hne. unfold enrich_at. destruct (l !! i); [|done].
  by apply list_lookup_insert_ne.
Qed.

Lemma enrich_at_same i l :
  enrich_at parent_cell_look_up i l !! i = enrich' <$> l !! i.
Proof.
  unfold enrich_at. destruct (l !! i) as [a|] eqn:Hi; simpl; [|done].
  apply list_lookup_insert_eq. by eapply lookup_lt_Some.
Qed.

Lemma enrich_steps_prefix l n :
  (n <= length l)%nat ->
  enrich_steps parent_cell_look_up (seq 0 n) l
  = ((enrich' <$> take n l) ++ drop n l)%list.
Proof.
  unfold enrich_steps. induction n as [|n IH]; intros Hn.
  - simpl. by rewrite drop_0.
  - rewrite seq_S, foldl_app, IH by lia. simpl.
    destruct (lookup_lt_is_Some_2 l n) as [a Ha]; [lia|].
    assert (length (enrich' <$> take n l) = n) as Hlen.
    { rewrite length_fmap, length_take. lia. }
    unfold enrich_at.
    rewrite lookup_app_r by lia. rewrite Hlen, Nat.sub_diag.
    rewrite (drop_S _ _ _ Ha). simpl.
    rewrite insert_app_r_alt by lia. rewrite Hlen, Nat.sub_diag. simpl.
    rewrite (take_S_r _ _ _ Ha), fmap_app. simpl.
    by rewrite <- app_assoc.
Qed.

(** The loop enriches each record once, by its own step. *)
Lemma add_parent_hierarchy_to_annotations_fmap l :
  add_parent_hierarchy_to_annotations l parent_cell_look_up = enrich' <$> l.
Proof.
  unfold add_parent_hierarchy_to_annotations.
  rewrite enrich_steps_prefix by done.
  by rewrite firstn_all, drop_all, app_nil_r.
Qed.

Lemma truthy_Some (o : option string) :
  truthy o = true -> exists s, o = Some s /\ s <> "".
Proof.
  unfold truthy. destruct o as [s|]; [|done].
  destruct (String.eqb_spec s ""); [done|]. eauto.
Qed.

(** One record: the ontology fields stay, or both go, and they go only
    under a resolved parent whose two ontology fields equal the record's. *)
Lemma enrich_ontology_fields a :
  (ann_cell_ontology_term_id (enrich' a) = ann_cell_ontology_term_id a /\
   ann_cell_ontology_term (enrich' a) = ann_cell_ontology_term a)
  \/
  (ann_cell_ontology_term_id (enrich' a) = None /\
   ann_cell_ontology_term (enrich' a) = None /\
   exists e p acc,
     dict_get parent_cell_look_up (ann_cell_label a) = Some e /\
     parent e = Some p /\ p <> "" /\
     p_accession e = Some acc /\ acc <> "" /\
     cell_ontology_term_id <$> dict_get parent_cell_look_up p
       = ann_cell_ontology_term_id a /\
     cell_ontology_term <$> dict_get parent_cell_look_up p
       = ann_cell_ontology_term a).
Proof.
  unfold enrich.
  destruct (dict_get parent_cell_look_up (ann_cell_label a)) as [e|] eqn:He;
    simpl; [|by left].
  destruct (truthy (parent e)) eqn:Hp; simpl; [|by left].
  destruct (truthy (p_accession e)) eqn:Hacc; simpl; [|by left].
  apply truthy_Some in Hp as (p & Hp & Hpne).
  apply truthy_Some in Hacc as (acc & Hacc & Haccne).
  rewrite Hp. simpl.
  case_bool_decide as Hid; simpl; [|by left].
  case_bool_decide as Hterm; simpl; [|by left].
  right. split; [done|]. split; [done|].
  exists e, p, acc. done.
Qed.

(** [enrich] writes the two parent fields and the two ontology fields only. *)
Lemma enrich_identity_fields a :
  ann_labelset (enrich' a) = ann_labelset a /\
  ann_cell_label (enrich' a) = ann_cell_label a /\
  ann_cell_fullname (enrich' a) = ann_cell_fullname a /\
  ann_cell_set_accession (enrich' a) = ann_cell_set_accession a /\
  ann_cell_ids (enrich' a) = ann_cell_ids a.
Proof.
  unfold enrich.
  destruct (truthy _ && truthy _); [|done].
  destruct (bool_decide _ && bool_decide _); done.
Qed.

(** C8: in [add_parent_hierarchy_to_annotations] the two ontology fields
    of a record either stay as they are or are both removed, and they are
    removed only when the record's label has a resolved parent (parent
    label and parent accession both set and non-empty) whose two ontology
    fields equal the record's; a field that is absent stays absent; and
    the step for one record rewrites no other record of the list, the
    parent's included. *)
Theorem pruning_is_one_directional l i a a' :
  l !! i = Some a ->
  add_parent_hierarchy_to_annotations l parent_cell_look_up !! i = Some a' ->
  ((ann_cell_ontology_term_id a' = ann_cell_ontology_term_id a /\
    ann_cell_ontology_term a' = ann_cell_ontology_term a)
   \/
   (ann_cell_ontology_term_id a' = None /\
    ann_cell_ontology_term a' = None /\
    exists e p acc,
      dict_get parent_cell_look_up (ann_cell_label a) = Some e /\
      parent e = Some p /\ p <> "" /\
      p_accession e = Some acc /\ acc <> "" /\
      cell_ontology_term_id <$> dict_get parent_cell_look_up p
        = ann_cell_ontology_term_id a /\
      cell_ontology_term <$> dict_get parent_cell_look_up p
        = ann_cell_ontology_term a))
  /\ (ann_cell_ontology_term_id a = None -> ann_cell_ontology_term_id a' = None)
  /\ (ann_cell_ontology_term a = None -> ann_cell_ontology_term a' = None)
  /\ (forall m j, j <> i -> enrich_at parent_cell_look_up i m !! j = m !! j)
  /\ (forall j b, (i < j)%nat -> l !! j = Some b ->
        enrich_steps parent_cell_look_up (seq 0 j) l !! i = Some a').
Proof.
  intros Hi Hi'.
  rewrite add_parent_hierarchy_to_annotations_fmap, list_lookup_fmap, Hi in Hi'.
  simpl in Hi'. injection Hi' as <-.
  pose proof (enrich_ontology_fields a) as Hcases.
  split; [exact Hcases|].
  split; [|split; [|split]].
  - intros Hnone. destruct Hcases as [[-> _]|[-> _]]; done.
  - intros Hnone. destruct Hcases as [[_ ->]|(_ & -> & _)]; done.
  - intros m j Hne. by apply enrich_at_other.
  - intros j b Hij Hj.
    rewrite enrich_steps_prefix by (apply lookup_lt_Some in Hj; lia).
    rewrite lookup_app_l by (rewrite length_fmap, length_take;
                             apply lookup_lt_Some in Hi; apply lookup_lt_Some in Hj; lia).
    by rewrite list_lookup_fmap, lookup_take_lt, Hi by done.
Qed.
End Enricher.

Lemma pruning_is_one_directional_witness :
  exists a',
    add_parent_hierarchy_to_annotations family_annotations family_lookup !! 1%nat
    = Some a' /\
    ann_cell_ontology_term_id a' = None /\ ann_cell_ontology_term a' = None.
Proof.
  destruct (family_annotations !! 1%nat) as [a|] eqn:Ha; [|by vm_compute in Ha].
  destruct (add_parent_hierarchy_to_annotations family_annotations family_lookup
              !! 1%nat) as [a'|] eqn:Ha'; [|by vm_compute in Ha'].
  exists a'. split; [done|].
  destruct (pruning_is_one_directional family_lookup family_annotations 1 a a' Ha Ha')
    as ([[Hid Hterm]|(Hid & Hterm & _)] & _); [|done].
  vm_compute in Ha, Ha'. simplify_eq.
Defined.

(** Scenario 5 of the design, end to end: the cluster "c1" loses the
    ontology fields it shares with its class, the class keeps them, and
    "c2", whose term differs, keeps its own. *)
Example family_enriched :
  (fun a => (ann_cell_label a, ann_cell_ontology_term_id a,
             ann_cell_ontology_term a, parent_cell_set_name a))
    <$> add_parent_hierarchy_to_annotations family_annotations family_lookup
  = [ ("cl1", Some "CL:1", Some "neuron", None);
      ("c1", None, None, Some "cl1");
      ("c2", Some "CL:2", Some "glia", Some "cl1") ].
Proof. vm_compute. reflexivity. Qed.
(** ** Reading the table *)

Section Table.
Context {py : PyBuiltins}.
Implicit Types (obs : DataFrame) (col : list string) (mask : list bool).

Lemma select_mask_nil_l {A} (values : list A) : select_mask [] values = [].
Proof. done. Qed.

Lemma select_mask_nil_r {A} mask : select_mask mask (@nil A) = [].
Proof. unfold select_mask. by destruct mask. Qed.

Lemma select_mask_cons {A} (b : bool) mask (x : A) values :
  select_mask (b :: mask) (x :: values)
  = if b then x :: select_mask mask values else select_mask mask values.
Proof.
  unfold select_mask. simpl. rewrite filter_cons. simpl.
  destruct b; by case_decide.
Qed.

(** The selection keeps the order of the values and invents nothing. *)
Lemma select_mask_sublist {A} mask (values : list A) :
  select_mask mask values `sublist_of` values.
Proof.
  revert values. induction mask as [|b mask IH]; intros [|x values].
  - constructor.
  - apply sublist_nil_l.
  - rewrite select_mask_nil_r. constructor.
  - rewrite select_mask_cons. destruct b.
    + by apply sublist_skip.
    + by apply sublist_cons.
Qed.

Lemma elem_of_select_mask {A} mask (values : list A) (c : A) :
  c ∈ select_mask mask values <->
  exists i, mask !! i = Some true /\ values !! i = Some c.
Proof.
  revert values. induction mask as [|b mask IH]; intros [|x values];
    rewrite ?select_mask_nil_l, ?select_mask_nil_r.
  - split; [by intros ?%elem_of_nil|by intros (i & ? & ?)].
  - split; [by intros ?%elem_of_nil|by intros (i & ? & ?)].
  - split; [by intros ?%elem_of_nil|by intros (i & ? & ?)].
  - rewrite select_mask_cons. destruct b.
    + rewrite elem_of_cons, IH. split.
      * intros [->|(i & Hm & Hv)]; [by exists 0%nat|by exists (S i)].
      * intros ([|i] & Hm & Hv); simplify_eq/=; [by left|right; eauto].
    + rewrite IH. split.
      * intros (i & Hm & Hv). by exists (S i).
      * intros ([|i] & Hm & Hv); simplify_eq/=. eauto.
Qed.

(** The first selected value sits at the first position the mask marks. *)
Lemma select_mask_first {A} (f : string -> bool) col (values : list A) i x t :
  col !! i = Some x -> f x = true ->
  (forall j y, (j < i)%nat -> col !! j = Some y -> f y = false) ->
  values !! i = Some t ->
  iloc0 (select_mask (map f col) values) = Ok t.
Proof.
  revert values i. induction col as [|y col IH]; intros [|v values] i Hi Hf Hfirst Ht;
    try done.
  simpl. rewrite select_mask_cons. destruct i as [|i]; simplify_eq/=.
  - by rewrite Hf.
  - rewrite (Hfirst 0%nat y) by (done || lia).
    apply (IH values i); [done..| |done].
    intros j z Hj Hz. apply (Hfirst (S j) z); [lia|done].
Qed.

Lemma select_mask_none {A} (f : string -> bool) col (values : list A) :
  (forall x, x ∈ col -> f x = false) ->
  select_mask (map f col) values = [].
Proof.
  revert values. induction col as [|y col IH]; intros [|v values] Hnone;
    rewrite ?select_mask_nil_r; try done.
  simpl. rewrite select_mask_cons, (Hnone y) by (by left).
  apply IH. intros x Hx. apply Hnone. by right.
Qed.

(** X1: [get_cell_ids] fails only for a missing column; otherwise it
    returns, in index order, exactly the index entries of the rows whose
    value equals the label after lower-casing both. *)
Theorem get_cell_ids_spec obs labelset cell_label :
  match df_columns obs !! labelset with
  | None => get_cell_ids obs labelset cell_label = Raise (KeyError labelset)
  | Some col =>
      exists ids,
        get_cell_ids obs labelset cell_label = Ok ids /\
        ids `sublist_of` df_index obs /\
        forall c, c ∈ ids <->
          exists i v, df_index obs !! i = Some c /\ col !! i = Some v /\
                      py_lower v = py_lower cell_label
  end.
Proof.
  unfold get_cell_ids, df_column.
  destruct (df_columns obs !! labelset) as [col|]; [|done]. simpl.
  eexists. split; [done|]. split; [apply select_mask_sublist|].
  intros c. rewrite elem_of_select_mask. split.
  - intros (i & Hm & Hc). rewrite list_lookup_fmap in Hm.
    destruct (col !! i) as [v|] eqn:Hv; simplify_eq/=.
    apply bool_decide_eq_true in Hm. eauto.
  - intros (i & v & Hc & Hv & Hlow). exists i. split; [|done].
    rewrite list_lookup_fmap, Hv. simpl. by rewrite bool_decide_eq_true_2.
Qed.

(** X2: with its three columns present [get_cl_annotations_from_anndata]
    returns the ontology term id and term of the FIRST row whose value
    equals the label exactly, and raises [IndexError] when no row does. *)
Theorem get_cl_annotations_first_match obs columns_name cell_label col ids terms :
  df_columns obs !! columns_name = Some col ->
  df_columns obs !! "cell_type_ontology_term_id" = Some ids ->
  df_columns obs !! "cell_type" = Some terms ->
  (cell_label ∉ col ->
     get_cl_annotations_from_anndata obs columns_name cell_label = Raise IndexError)
  /\
  (forall i t1 t2,
     col !! i = Some cell_label ->
     (forall j y, (j < i)%nat -> col !! j = Some y -> y <> cell_label) ->
     ids !! i = Some t1 -> terms !! i = Some t2 ->
     get_cl_annotations_from_anndata obs columns_name cell_label = Ok (t1, t2)).
Proof.
  intros Hcol Hids Hterms.
  unfold get_cl_annotations_from_anndata, df_column.
  rewrite Hcol, Hids, Hterms. simpl. split.
  - intros Hnot.
    rewrite (select_mask_none (fun v => bool_decide (v = cell_label)) col ids);
      [reflexivity|].
    intros x Hx. apply bool_decide_eq_false. by intros ->.
  - intros i t1 t2 Hi Hfirst Ht1 Ht2.
    assert (forall j y, (j < i)%nat -> col !! j = Some y ->
                        bool_decide (y = cell_label) = false) as Hfirst'.
    { intros j y Hj Hy. apply bool_decide_eq_false. by eapply Hfirst. }
    rewrite (select_mask_first (fun v => bool_decide (v = cell_label))
               col ids i cell_label t1 Hi (bool_decide_eq_true_2 _ eq_refl) Hfirst' Ht1).
    simpl.
    by rewrite (select_mask_first (fun v => bool_decide (v = cell_label))
                  col terms i cell_label t2 Hi (bool_decide_eq_true_2 _ eq_refl) Hfirst' Ht2).
Qed.
End Table.

(** ** Ranks and labelsets *)

Section Labelsets.
Implicit Types (obs : DataFrame) (l labelsets : list string).

Local Abbreviation assign c :=
  (fun (d : gmap string Z) (ri : nat * string) => <[ri.2 := c - 1 - Z.of_nat ri.1]> d).

Lemma rank_fold_last (c : Z) l (i : nat) (name : string) :
  l !! i = Some name ->
  (forall j, (i < j)%nat -> l !! j <> Some name) ->
  foldl (assign c) ∅ (enumerate l) !! name = Some (c - 1 - Z.of_nat i).
Proof.
  revert i. induction l as [|x l IH] using rev_ind; intros i Hi Hlast; [done|].
  rewrite enumerate_snoc, foldl_app. simpl.
  destruct (decide (i < length l)%nat) as [Hlt|Hge].
  - rewrite lookup_app_l in Hi by done.
    assert (name <> x) as Hne.
    { intros ->. apply (Hlast (length l) Hlt).
      by rewrite lookup_app_r, Nat.sub_diag by lia. }
    rewrite lookup_insert_ne by done. apply IH; [done|].
    intros j Hj Hjn. apply (Hlast j Hj).
    rewrite lookup_app_l; [done|]. by eapply lookup_lt_Some.
  - rewrite lookup_app_r in Hi by lia.
    destruct (i - length l)%nat as [|?] eqn:Hd; simplify_eq/=.
    rewrite lookup_insert_eq. do 2 f_equal. lia.
Qed.

Lemma rank_fold_absent (c : Z) l (name : string) :
  name ∉ l -> foldl (assign c) ∅ (enumerate l) !! name = None.
Proof.
  induction l as [|x l IH] using rev_ind; intros Hnot; [done|].
  rewrite enumerate_snoc, foldl_app. simpl.
  rewrite not_elem_of_app, list_elem_of_singleton in Hnot.
  destruct Hnot as [Hl Hx].
  rewrite lookup_insert_ne by done. by apply IH.
Qed.

(** X3: on any list, repeated names included, [calculate_labelset_rank]
    gives a name the rank n - 1 - i of its LAST position i, and gives
    no rank to a name that is not in the list (none at all on the empty
    list). *)
Theorem calculate_labelset_rank_last_position l :
  (forall i name,
     l !! i = Some name ->
     (forall j, (i < j)%nat -> l !! j <> Some name) ->
     calculate_labelset_rank l !! name
     = Some (Z.of_nat (length l) - 1 - Z.of_nat i))
  /\ (forall name, name ∉ l -> calculate_labelset_rank l !! name = None)
  /\ calculate_labelset_rank [] = ∅.
Proof.
  split; [|split; [|done]].
  - intros i name Hi Hlast. by apply rank_fold_last.
  - intros name Hnot. by apply rank_fold_absent.
Qed.

Lemma calculate_labelset_unfold obs labelsets :
  calculate_labelset obs labelsets
  = calculate_labelset_loop obs (calculate_labelset_rank labelsets)
      labelsets dict_empty.
Proof.
  unfold calculate_labelset.
  generalize (calculate_labelset_rank labelsets), (@dict_empty Labelset).
  induction labelsets as [|item rest IH]; intros ranks d; [done|].
  simpl. destruct (df_column obs item); [apply IH|done].
Qed.

(** The record written for one labelset. *)
Local Abbreviation labelset_record ranks item col :=
  {| members := remove_dups col;
     labelset_rank :=
       match (ranks : gmap string Z) !! (item : string) with
       | Some r => py_str r
       | None => "None"
       end |}.

Lemma calculate_labelset_loop_Ok obs ranks items : forall d0 d,
  dict_wf d0 ->
  calculate_labelset_loop obs ranks items d0 = Ok d ->
  dict_wf d /\
  (forall k, k ∈ dict_keys d <-> k ∈ dict_keys d0 \/ k ∈ items) /\
  (forall k, k ∉ items -> dict_get d k = dict_get d0 k) /\
  (forall k, k ∈ items ->
     exists col, df_columns obs !! k = Some col /\
                 dict_get d k = Some (labelset_record ranks k col)).
Proof.
  induction items as [|item rest IH]; intros d0 d Hwf Hloop.
  - simplify_eq/=. split; [done|]. split; [|split]; [|done|].
    + intros k. rewrite elem_of_nil. split; [by left|by intros [?|?]].
    + by intros k ?%elem_of_nil.
  - simpl in Hloop. unfold df_column in Hloop.
    destruct (df_columns obs !! item) as [col|] eqn:Hcol; [|done].
    simpl in Hloop.
    destruct (IH _ _ (dict_wf_set _ item (labelset_record ranks item col) Hwf) Hloop)
      as (Hwf' & Hkeys & Hout & Hin).
    split; [done|]. split; [|split].
    + intros k. rewrite Hkeys, elem_of_cons. unfold dict_set. simpl.
      case_decide as Hd.
      * split; [intros [?|?]; auto|]. intros [?|[->|?]]; auto.
      * rewrite elem_of_app, list_elem_of_singleton.
        split; [intros [[?| ->]|?]; auto|]. intros [?|[->|?]]; auto.
    + intros k [Hne Hk]%not_elem_of_cons.
      rewrite (Hout k Hk). by apply dict_get_set_ne.
    + intros k [->|Hk]%elem_of_cons.
      * destruct (decide (item ∈ rest)) as [Hr|Hr]; [by apply Hin|].
        exists col. split; [done|]. rewrite (Hout item Hr).
        apply dict_get_set_eq.
      * by apply Hin.
Qed.

Lemma calculate_labelset_loop_keys obs ranks items : forall d0 d,
  calculate_labelset_loop obs ranks items d0 = Ok d ->
  NoDup items -> (forall k, k ∈ items -> k ∉ dict_keys d0) ->
  dict_keys d = (dict_keys d0 ++ items)%list.
Proof.
  induction items as [|item rest IH]; intros d0 d Hloop Hnd Hfresh.
  - simplify_eq/=. by rewrite app_nil_r.
  - simpl in Hloop. destruct (df_column obs item) as [col|]; [|done].
    simpl in Hloop. apply NoDup_cons in Hnd as [Hitem Hnd].
    rewrite (IH _ _ Hloop Hnd).
    + unfold dict_set. simpl.
      rewrite decide_False by (apply Hfresh; by left).
      by rewrite <- app_assoc.
    + intros k Hk. unfold dict_set. simpl.
      rewrite decide_False by (apply Hfresh; by left).
      rewrite not_elem_of_app, list_elem_of_singleton.
      split; [apply Hfresh; by right|]. by intros ->.
Qed.

(** X4: for pairwise distinct labelset names that are all columns of the
    table, [calculate_labelset] returns a dictionary whose keys are the
    names in the order given; the labelset at position i holds the
    distinct values of its column and, as rank, the decimal text of
    n - 1 - i. *)
Theorem calculate_labelset_spec obs labelsets :
  NoDup labelsets ->
  (forall item, item ∈ labelsets -> is_Some (df_columns obs !! item)) ->
  exists d,
    calculate_labelset obs labelsets = Ok d /\
    dict_wf d /\
    dict_keys d = labelsets /\
    forall i item col,
      labelsets !! i = Some item -> df_columns obs !! item = Some col ->
      exists v, dict_get d item = Some v /\
        labelset_rank v = py_str (Z.of_nat (length labelsets) - 1 - Z.of_nat i) /\
        NoDup (members v) /\
        (forall label, label ∈ members v <-> label ∈ col).
Proof.
  intros Hnd Hcols. rewrite calculate_labelset_unfold.
  assert (exists d, calculate_labelset_loop obs (calculate_labelset_rank labelsets)
                      labelsets dict_empty = Ok d) as [d Hd].
  { generalize (calculate_labelset_rank labelsets), (@dict_empty Labelset).
    induction labelsets as [|item rest IH]; intros ranks d0; [by eexists|].
    simpl. unfold df_column.
    destruct (Hcols item) as [col ->]; [by left|]. simpl.
    apply IH; [by apply NoDup_cons in Hnd as [_ ?]|].
    intros x Hx. apply Hcols. by right. }
  exists d. split; [done|].
  destruct (calculate_labelset_loop_Ok _ _ _ _ _ dict_wf_empty Hd)
    as (Hwf & _ & _ & Hin).
  split; [done|]. split.
  { rewrite (calculate_labelset_loop_keys _ _ _ _ _ Hd Hnd); [done|].
    intros k _. simpl. apply not_elem_of_nil. }
  intros i item col Hi Hcol.
  destruct (Hin item) as (col' & Hcol' & Hget); [by eapply list_elem_of_lookup_2|].
  rewrite Hcol in Hcol'. injection Hcol' as <-.
  assert (calculate_labelset_rank labelsets !! item
          = Some (Z.of_nat (length labelsets) - 1 - Z.of_nat i)) as Hrank
    by (by apply rank_fold_lookup).
  eexists. split; [exact Hget|]. simpl. rewrite Hrank.
  split; [done|]. split; [apply NoDup_remove_dups|].
  intros label. apply elem_of_remove_dups.
Qed.

(** X5: [calculate_labelset] raises [KeyError] for the first labelset
    name, in list order, that is not a column of the table. *)
Theorem calculate_labelset_missing_column obs before item after :
  (forall x, x ∈ before -> is_Some (df_columns obs !! x)) ->
  df_columns obs !! item = None ->
  calculate_labelset obs (before ++ item :: after) = Raise (KeyError item).
Proof.
  intros Hbefore Hmissing. rewrite calculate_labelset_unfold.
  generalize (calculate_labelset_rank (before ++ item :: after)),
             (@dict_empty Labelset).
  induction before as [|x before IH]; intros ranks d0; simpl; unfold df_column.
  - by rewrite Hmissing.
  - destruct (Hbefore x) as [col ->]; [by left|]. simpl.
    apply IH. intros y Hy. apply Hbefore. by right.
Qed.
End Labelsets.

(** ** From the table to the annotations *)

Section Pipeline.
Context {py : PyBuiltins} {am : AccessionManager}.
Implicit Types (obs : DataFrame) (d lk : pydict Entry) (label k : string).
Implicit Types (v : Labelset) (occs : list (string * Labelset * string)).
Implicit Types (anns : list Annotation).

(** X6: the lookup of [generate_parent_cell_lookup] is a well-formed
    dictionary without parent fields, and it has an entry for a label
    exactly when the label is a member of some labelset. *)
Theorem lookup_has_exactly_the_labels obs (labelset_dict : pydict Labelset) d :
  generate_parent_cell_lookup obs labelset_dict = Ok d ->
  dict_wf d /\
  unparented (dict_store d) /\
  forall label,
    is_Some (dict_get d label) <->
    exists k v, (k, v, label) ∈ occurrences labelset_dict.
Proof.
  intros Hgen.
  destruct (generate_parent_cell_lookup_unparented _ _ _ Hgen) as [Hwf Hun].
  apply generate_parent_cell_lookup_collected in Hgen as [_ Hinv].
  split; [done|]. split; [done|].
  intros label. specialize (Hinv label).
  destruct (dict_get d label) as [e|].
  - split; [intros _|eauto].
    destruct Hinv as ((k & v & ids & ct & (before & after & -> & _) & _) & _).
    exists k, v. rewrite elem_of_app, elem_of_cons. auto.
  - split; [by intros [? ?]|]. intros (k & v & Hin).
    by destruct (Hinv _ Hin).
Qed.






Lemma lookup_loop_unknown_label obs k v label col before after :
  df_columns obs !! k = Some col ->
  has_ontology_columns obs ->
  label ∉ col ->
  forall d0 d1,
    lookup_loop obs before d0 = Ok d1 ->
    lookup_loop obs (before ++ (k, v, label) :: after) d0 = Raise IndexError.
Proof.
  intros Hcol [[ids Hids] [terms Hterms]] Hnot.
  induction before as [|[[k0 v0] l0] before IH]; intros d0 d1 Hbefore; simpl in *.
  - unfold lookup_step, get_cl_annotations_from_anndata, df_column.
    rewrite Hcol, Hids. simpl.
    rewrite (select_mask_none (fun y => bool_decide (y = label)) col ids);
      [reflexivity|].
    intros x Hx. apply bool_decide_eq_false. by intros ->.
  - destruct (lookup_step obs k0 v0 l0 d0) as [d'|]; [|done]. simpl in *.
    by eapply IH.
Qed.

(** X8: a member label that does not occur in the column of its labelset
    stops [generate_parent_cell_lookup] with [IndexError], the three
    columns being present and the labels before it having passed. *)
Theorem lookup_of_unknown_label_fails obs (labelset_dict : pydict Labelset)
    k v label col before after d1 :
  occurrences labelset_dict = (before ++ (k, v, label) :: after)%list ->
  lookup_loop obs before dict_empty = Ok d1 ->
  df_columns obs !! k = Some col ->
  has_ontology_columns obs ->
  label ∉ col ->
  generate_parent_cell_lookup obs labelset_dict = Raise IndexError.
Proof.
  intros Hocc Hbefore Hcol Hont Hnot. unfold generate_parent_cell_lookup.
  rewrite Hocc. by eapply lookup_loop_unknown_label.
Qed.

Lemma annotation_loop_spec obs lk occs : forall anns anns',
  annotation_loop obs lk occs anns = Ok anns' ->
  exists new, anns' = (anns ++ new)%list /\
              Forall2 (annotation_of obs lk) occs new.
Proof.
  induction occs as [|[[k v] label] occs IH]; intros anns anns' Hloop.
  - simplify_eq/=. exists []. by rewrite app_nil_r.
  - simpl in Hloop. unfold annotation_step in Hloop.
    destruct (get_cell_ids obs k label) as [ids|] eqn:Hids; [|done].
    simpl in Hloop.
    destruct (dict_get lk label) as [e|] eqn:He; [|done]. simpl in Hloop.
    destruct (IH _ _ Hloop) as (new & -> & Hnew).
    eexists (_ :: new). rewrite <- app_assoc. split; [done|].
    constructor; [|done]. exists e, ids. by rewrite Hids.
Qed.

(** X9: a successful [generate_cas_annotations] keeps the records it was
    given and appends one record per (labelset, label) pair, in loop
    order; the record carries the labelset, the label (also as full
    name), the accession and ontology fields of the label's lookup
    entry, the cell ids selected for this labelset, and no parent field. *)
Theorem generate_cas_annotations_spec obs anns (labelset_dict : pydict Labelset)
    lk anns' :
  generate_cas_annotations obs anns labelset_dict lk = Ok anns' ->
  exists new,
    anns' = (anns ++ new)%list /\
    length new = length (occurrences labelset_dict) /\
    Forall2 (annotation_of obs lk) (occurrences labelset_dict) new.
Proof.
  intros (new & -> & Hnew)%annotation_loop_spec.
  exists new. split; [done|]. split; [|done].
  symmetry. by eapply Forall2_length.
Qed.

Lemma annotation_loop_missing_label obs lk k v label before after :
  is_Some (df_columns obs !! k) ->
  dict_get lk label = None ->
  forall anns anns1,
    annotation_loop obs lk before anns = Ok anns1 ->
    annotation_loop obs lk (before ++ (k, v, label) :: after) anns
    = Raise (KeyError label).
Proof.
  intros [col Hcol] Hnone.
  induction before as [|[[k0 v0] l0] before IH]; intros anns anns1 Hbefore;
    simpl in *.
  - unfold annotation_step, get_cell_ids, df_column. rewrite Hcol. simpl.
    by rewrite Hnone.
  - destruct (annotation_step obs lk k0 l0 anns) as [a1|]; [|done]. simpl in *.
    by eapply IH.
Qed.

(** X10: a label that the lookup lacks stops [generate_cas_annotations]
    with [KeyError] on that label, its column being present and the
    records before it having been made. *)
Theorem generate_cas_annotations_missing_label obs anns
    (labelset_dict : pydict Labelset) lk k v label before after anns1 :
  occurrences labelset_dict = (before ++ (k, v, label) :: after)%list ->
  annotation_loop obs lk before anns = Ok anns1 ->
  is_Some (df_columns obs !! k) ->
  dict_get lk label = None ->
  generate_cas_annotations obs anns labelset_dict lk = Raise (KeyError label).
Proof.
  intros Hocc Hbefore Hcol Hnone. unfold generate_cas_annotations.
  rewrite Hocc. by eapply annotation_loop_missing_label.
Qed.

Lemma lookup_loop_cell_ids obs occs : forall d d',
  lookup_loop obs occs d = Ok d' ->
  Forall (fun occ => exists ids, get_cell_ids obs occ.1.1 occ.2 = Ok ids) occs.
Proof.
  induction occs as [|[[k v] label] occs IH]; intros d d' Hloop; [constructor|].
  simpl in Hloop.
  destruct (lookup_step obs k v label d) as [d1|] eqn:Hstep; [|done].
  simpl in Hloop. constructor; [|by eapply IH].
  apply lookup_step_Ok in Hstep as (ct & ids & _ & Hids & _). simpl. eauto.
Qed.

Lemma annotation_loop_succeeds obs lk occs : forall anns,
  Forall (fun occ => (exists ids, get_cell_ids obs occ.1.1 occ.2 = Ok ids) /\
                     is_Some (dict_get lk occ.2)) occs ->
  exists anns', annotation_loop obs lk occs anns = Ok anns'.
Proof.
  induction occs as [|[[k v] label] occs IH]; intros anns Hall; [by eexists|].
  apply Forall_cons in Hall as [[[ids Hids] [e He]] Hall]. simpl in *.
  unfold annotation_step. rewrite Hids. simpl. rewrite He. simpl.
  by apply IH.
Qed.

(** X11: the three calls fit together: once the lookup has been built
    from a labelset dictionary and the hierarchy has been added without
    error, [generate_cas_annotations] over the same dictionary cannot
    fail, whatever records it starts from. *)
Theorem annotations_after_hierarchy_succeed obs (labelset_dict : pydict Labelset)
    lk lk' anns :
  generate_parent_cell_lookup obs labelset_dict = Ok lk ->
  add_parent_cell_hierarchy lk = Ok lk' ->
  exists anns', generate_cas_annotations obs anns labelset_dict lk' = Ok anns'.
Proof.
  intros Hgen [_ Hrun]%add_parent_cell_hierarchy_Ok.
  unfold generate_cas_annotations. apply annotation_loop_succeeds.
  pose proof (lookup_loop_cell_ids _ _ _ _ Hgen) as Hids.
  apply generate_parent_cell_lookup_collected in Hgen as [_ Hinv].
  apply run_pairs_static in Hrun.
  rewrite Forall_forall in Hids. apply Forall_forall.
  intros [[k v] label] Hocc. split; [by apply (Hids _ Hocc)|]. simpl.
  specialize (Hinv label). unfold dict_get in *.
  destruct (dict_store lk !! label) as [e|] eqn:He.
  - destruct (static_lookup _ _ _ _ Hrun He) as (e' & -> & _). eauto.
  - by destruct (Hinv _ Hocc).
Qed.
(** X21: every cell id of a lookup entry is a row identifier of the
    table the lookup was built from. *)
Theorem lookup_cells_are_rows obs (labelset_dict : pydict Labelset) d label
    (e : Entry) (c : string) :
  generate_parent_cell_lookup obs labelset_dict = Ok d ->
  dict_get d label = Some e ->
  c ∈ cell_ids e ->
  c ∈ df_index obs.
Proof.
  intros [_ Hinv]%generate_parent_cell_lookup_collected He Hc.
  specialize (Hinv label). rewrite He in Hinv.
  destruct Hinv as (_ & _ & Hcells).
  apply Hcells in Hc as (k & v & ids & _ & Hids & Hc).
  unfold get_cell_ids in Hids.
  destruct (df_column obs k) as [col|]; simplify_eq/=.
  eapply elem_of_sublist; [done|apply select_mask_sublist].
Qed.

(** X22: the cell ids of a record that [generate_cas_annotations] makes
    after lookup and hierarchy all belong to the cell-id set of the
    lookup entry of the record's label. *)
Theorem annotation_cells_within_entry obs (labelset_dict : pydict Labelset)
    lk lk' anns anns' (a : Annotation) (c : string) :
  generate_parent_cell_lookup obs labelset_dict = Ok lk ->
  add_parent_cell_hierarchy lk = Ok lk' ->
  generate_cas_annotations obs anns labelset_dict lk' = Ok anns' ->
  a ∈ drop (length anns) anns' ->
  c ∈ ann_cell_ids a ->
  exists e, dict_get lk' (ann_cell_label a) = Some e /\ c ∈ cell_ids e.
Proof.
  intros Hgen [_ Hrun]%add_parent_cell_hierarchy_Ok
         (new & -> & Hnew)%annotation_loop_spec Ha Hc.
  rewrite drop_app_length in Ha.
  apply generate_parent_cell_lookup_collected in Hgen as [_ Hinv].
  apply run_pairs_static in Hrun.
  apply list_elem_of_lookup in Ha as [i Hi].
  destruct (Forall2_lookup_r _ _ _ _ _ Hnew Hi) as ([[k v] label] & Hocc & Hrel).
  destruct Hrel as (e' & ids & He' & Hids & ->). simpl in *.
  exists e'. split; [done|].
  specialize (Hinv label). unfold dict_get in *.
  destruct (dict_store lk !! label) as [e|] eqn:He.
  - destruct (static_lookup _ _ _ _ Hrun He) as (e'' & He'' & Hs).
    rewrite He' in He''. injection He'' as <-.
    apply (f_equal cell_ids) in Hs. simpl in Hs. rewrite Hs.
    destruct Hinv as (_ & _ & Hcells). apply Hcells.
    exists k, v, ids. split; [by eapply list_elem_of_lookup_2|done].
  - exfalso. apply (Hinv (k, v, label)); [by eapply list_elem_of_lookup_2|done].
Qed.
End Pipeline.
(** ** More on the hierarchy builder *)

Section HierarchyMore.
Context {py : PyBuiltins}.
Implicit Types (st : gmap string Entry) (k p key inner_key a b : string).
Implicit Types (e v : Entry) (pairs : list (string * string)) (d : pydict Entry).

Lemma clear_parent_fields (e e' : Entry) :
  clear_parent e' = clear_parent e ->
  cell_ids e' = cell_ids e /\ accession e' = accession e /\ rank e' = rank e /\
  cell_ontology_term_id e' = cell_ontology_term_id e /\
  cell_ontology_term e' = cell_ontology_term e.
Proof.
  intros Heq.
  pose proof (f_equal cell_ids Heq). pose proof (f_equal accession Heq).
  pose proof (f_equal rank Heq). pose proof (f_equal cell_ontology_term_id Heq).
  pose proof (f_equal cell_ontology_term Heq). done.
Qed.

(** X12: [add_parent_cell_hierarchy] writes parent fields only: the keys
    and their order stay, no entry appears or disappears, and the cell-id
    set, accession, rank and ontology fields of every entry are
    unchanged. *)
Theorem hierarchy_writes_parent_fields_only d d' :
  add_parent_cell_hierarchy d = Ok d' ->
  dict_keys d' = dict_keys d /\
  forall k,
    match dict_get d k with
    | Some e =>
        exists e', dict_get d' k = Some e' /\
          cell_ids e' = cell_ids e /\ accession e' = accession e /\
          rank e' = rank e /\
          cell_ontology_term_id e' = cell_ontology_term_id e /\
          cell_ontology_term e' = cell_ontology_term e
    | None => dict_get d' k = None
    end.
Proof.
  intros [Hkeys Hrun]%add_parent_cell_hierarchy_Ok. split; [done|].
  apply run_pairs_static in Hrun. intros k. unfold dict_get.
  destruct (dict_store d !! k) as [e|] eqn:He.
  - destruct (static_lookup _ _ _ _ Hrun He) as (e' & He' & Hs).
    exists e'. split; [done|]. by apply clear_parent_fields.
  - apply (f_equal (fun m => m !! k)) in Hrun.
    rewrite !lookup_fmap, He in Hrun.
    by destruct (dict_store d' !! k).
Qed.

Lemma pair_effect_together st key inner_key st' :
  pair_effect st key inner_key st' ->
  parent_fields_together st -> parent_fields_together st'.
Proof.
  intros [|child par v pv _ Hne Hc Hp Hb] Htog; [done|].
  intros k e Hk Hnone. destruct (decide (k = child)) as [->|Hkc].
  - rewrite lookup_insert_eq in Hk. by simplify_eq/=.
  - rewrite lookup_insert_ne in Hk by done. by eapply Htog.
Qed.

(** X13: after a run on a lookup without parent fields, an entry has
    either all three parent fields or none; the recorded parent is
    another label of the lookup, and [p_accession] and [parent_rank] are
    that entry's accession and rank. *)
Theorem parent_fields_are_consistent d d' a (ea : Entry) :
  unparented (dict_store d) ->
  add_parent_cell_hierarchy d = Ok d' ->
  dict_get d' a = Some ea ->
  match parent ea with
  | Some p =>
      p <> a /\
      exists pe, dict_get d' p = Some pe /\
        p_accession ea = Some (accession pe) /\
        parent_rank ea = Some (rank pe)
  | None => p_accession ea = None /\ parent_rank ea = None
  end.
Proof.
  intros Hun [_ Hrun]%add_parent_cell_hierarchy_Ok Ha. unfold dict_get in *.
  destruct (parent ea) as [p|] eqn:Hpar.
  - apply run_pairs_well_parented in Hrun; [|by apply unparented_well_parented].
    destruct (Hrun _ _ _ Ha Hpar) as (Hne & pe & Hpe & Hacc & Hrk & _). eauto.
  - assert (parent_fields_together (dict_store d')) as Htog.
    { apply (run_pairs_preserves parent_fields_together)
        with (pairs := product2 (dict_keys d)) (st := dict_store d); [|done|].
      - intros ????. apply pair_effect_together.
      - intros k e Hk _. by destruct (Hun _ _ Hk) as (_ & ? & ?). }
    by eapply Htog.
Qed.

Lemma strict_subset_branch (x y : gset string) :
  x ⊂ y ->
  bool_decide (x ≠ y) && bool_decide (x ⊆ y) = true.
Proof.
  intros [Hsub Hnot]. apply andb_true_intro. split.
  - apply bool_decide_eq_true. intros ->. by apply Hnot.
  - by apply bool_decide_eq_true.
Qed.

(** A pair whose first entry lies below the second leaves the first one
    with a parent. *)
Lemma pair_gives_parent st a b (va vb : Entry) st' :
  st !! a = Some va -> st !! b = Some vb -> a <> b -> below va vb ->
  pair_step st a b = Ok st' ->
  is_Some (parent_of st' a).
Proof.
  intros Ha Hb Hne Hbelow Hstep.
  destruct (skip_pair a b va vb) as [[|]|] eqn:Hskip.
  - unfold pair_step in Hstep. rewrite Ha, Hb, Hskip in Hstep. simplify_eq/=.
    unfold parent_of. rewrite Ha. simpl. by eapply skip_pair_true_parented.
  - destruct Hbelow as [Hs|(Hcells & ra & rb & Hra & Hrb & Hlt)].
    + unfold pair_step in Hstep. rewrite Ha, Hb, Hskip in Hstep. simpl in Hstep.
      rewrite (strict_subset_branch _ _ Hs) in Hstep. simplify_eq.
      unfold parent_of. rewrite lookup_insert_eq. simpl. eauto.
    + destruct (tie_break_pair st a b va vb ra rb Ha Hb Hcells Hra Hrb Hlt)
        as [Hstep' _].
      rewrite (Hstep' Hskip) in Hstep. simplify_eq.
      unfold parent_of. rewrite lookup_insert_eq. simpl. eauto.
  - unfold pair_step in Hstep. by rewrite Ha, Hb, Hskip in Hstep.
Qed.

(** X14: after a run on a well-formed lookup without parent fields, an
    entry has a parent exactly when some entry of the lookup lies above
    it (a strictly larger cell set, or the same cell set at a strictly
    higher integer rank): nothing below another entry is left a root, and
    nothing maximal gets a parent. *)
Theorem parent_iff_some_entry_above d d' a (ea : Entry) :
  dict_wf d -> unparented (dict_store d) ->
  add_parent_cell_hierarchy d = Ok d' ->
  dict_get d' a = Some ea ->
  (is_Some (parent ea) <->
   exists b eb, dict_get d' b = Some eb /\ below ea eb).
Proof.
  intros [_ Hdom] Hun [_ Hrun]%add_parent_cell_hierarchy_Ok Ha.
  unfold dict_get in *.
  pose proof (run_pairs_well_parented _ _ _ Hrun (unparented_well_parented _ Hun)) as Hwp.
  pose proof (run_pairs_static _ _ _ Hrun) as Hstatic.
  split.
  - intros [p Hp]. destruct (Hwp _ _ _ Ha Hp) as (_ & pe & Hpe & _ & _ & Hb). eauto.
  - intros (b & eb & Hb & Hbelow).
    assert (a <> b) as Hne.
    { intros ->. rewrite Ha in Hb. injection Hb as <-. by eapply below_irrefl. }
    symmetry in Hstatic.
    destruct (static_lookup _ _ _ _ Hstatic Ha) as (ea0 & Ha0 & Hsa).
    destruct (static_lookup _ _ _ _ Hstatic Hb) as (eb0 & Hb0 & Hsb).
    assert ((a, b) ∈ product2 (dict_keys d)) as Hpair.
    { unfold product2. rewrite list_elem_of_In.
      apply in_prod; rewrite <- list_elem_of_In; apply Hdom; eauto. }
    apply list_elem_of_split in Hpair as (pre & post & Hsplit).
    rewrite Hsplit, run_pairs_app in Hrun.
    destruct (run_pairs pre (dict_store d)) as [st1|] eqn:Hpre; [|done].
    simpl in Hrun.
    destruct (pair_step st1 a b) as [st2|] eqn:Hstep; [|done]. simpl in Hrun.
    pose proof (run_pairs_static _ _ _ Hpre) as Hstatic1.
    destruct (static_lookup _ _ _ _ Hstatic1 Ha0) as (va & Hva & Hsva).
    destruct (static_lookup _ _ _ _ Hstatic1 Hb0) as (vb & Hvb & Hsvb).
    assert (below va vb) as Hbelow'.
    { eapply below_static; [| |exact Hbelow]; congruence. }
    pose proof (pair_gives_parent _ _ _ _ _ _ Hva Hvb Hne Hbelow' Hstep) as Hsome.
    pose proof (run_pairs_keeps_parent _ _ _ a Hrun Hsome) as [p Hp].
    unfold parent_of in Hp. rewrite Ha in Hp. simpl in Hp. eauto.
Qed.

Lemma pair_effect_keeps_entry st key inner_key st' k :
  pair_effect st key inner_key st' -> is_Some (st !! k) -> is_Some (st' !! k).
Proof.
  intros [|child par v pv _ Hne Hc Hp Hb] Hk; [done|].
  destruct (decide (k = child)) as [->|Hkc].
  - rewrite lookup_insert_eq. eauto.
  - by rewrite lookup_insert_ne.
Qed.

Lemma skip_pair_Ok st key inner_key (v iv : Entry) :
  well_parented st -> st !! key = Some v ->
  exists skip, skip_pair key inner_key v iv = Ok skip.
Proof.
  intros Hwp Hk. unfold skip_pair.
  destruct (String.eqb key inner_key); [eauto|].
  destruct (truthy (parent v)) eqn:Htruthy; [|eauto].
  destruct (parent v) as [p|] eqn:Hp; [|done].
  destruct (Hwp _ _ _ Hk Hp) as (_ & pe & _ & _ & -> & _). eauto.
Qed.

Lemma pair_step_exn st key inner_key (v iv : Entry) (err : exn) :
  well_parented st -> st !! key = Some v -> st !! inner_key = Some iv ->
  pair_step st key inner_key = Raise err ->
  exists msg, err = ValueError msg.
Proof.
  intros Hwp Hk Hik. unfold pair_step, int_rank. rewrite Hk, Hik.
  destruct (skip_pair_Ok st key inner_key v iv Hwp Hk) as [skip ->]. simpl.
  destruct skip; [done|].
  destruct (_ && _); [done|].
  case_bool_decide; [|done].
  destruct (py_int (rank iv)); simpl; [|intros ?; simplify_eq; eauto].
  destruct (py_int (rank v)); simpl; [|intros ?; simplify_eq; eauto].
  destruct (_ <? _); [done|]. destruct (_ <? _); [done|].
  intros ?; simplify_eq; eauto.
Qed.

Lemma run_pairs_exn pairs : forall st (err : exn),
  well_parented st ->
  (forall key inner_key, (key, inner_key) ∈ pairs ->
     is_Some (st !! key) /\ is_Some (st !! inner_key)) ->
  run_pairs pairs st = Raise err ->
  exists msg, err = ValueError msg.
Proof.
  induction pairs as [|[key inner_key] pairs IH]; intros st err Hwp Hkeys Hrun;
    [done|].
  simpl in Hrun.
  destruct (Hkeys key inner_key) as [[v Hk] [iv Hik]]; [by left|].
  destruct (pair_step st key inner_key) as [st1|err1] eqn:Hstep; simpl in Hrun.
  - pose proof (pair_step_effect _ _ _ _ Hstep) as Heff.
    apply (IH st1 err); [by eapply pair_effect_well_parented| |done].
    intros k1 k2 Hin. destruct (Hkeys k1 k2) as [H1 H2]; [by right|].
    split; by eapply pair_effect_keeps_entry.
  - injection Hrun as <-.
    exact (pair_step_exn st key inner_key v iv err1 Hwp Hk Hik Hstep).
Qed.

Lemma product2_keys (keys : list string) key inner_key :
  (key, inner_key) ∈ product2 keys -> key ∈ keys /\ inner_key ∈ keys.
Proof.
  unfold product2. rewrite !list_elem_of_In. apply in_prod_iff.
Qed.

(** X15: on a well-formed lookup without parent fields the only
    exception [add_parent_cell_hierarchy] can raise is a [ValueError]
    (the ambiguity error or a rank that [int] rejects): never a
    [KeyError], [TypeError] or [IndexError]. *)
Theorem hierarchy_raises_value_error_only d (err : exn) :
  dict_wf d -> unparented (dict_store d) ->
  add_parent_cell_hierarchy d = Raise err ->
  exists msg, err = ValueError msg.
Proof.
  intros [_ Hdom] Hun Hrun. unfold add_parent_cell_hierarchy in Hrun.
  destruct (run_pairs _ _) as [st'|err'] eqn:Hpairs; simplify_eq/=.
  eapply run_pairs_exn; [by apply unparented_well_parented| |done].
  intros key inner_key [H1 H2]%product2_keys. split; by apply Hdom.
Qed.

Lemma pair_step_Ok st key inner_key (v iv : Entry) :
  well_parented st -> st !! key = Some v -> st !! inner_key = Some iv ->
  (key <> inner_key -> cell_ids v = cell_ids iv ->
     exists rv ri, py_int (rank v) = Some rv /\ py_int (rank iv) = Some ri /\
                   rv <> ri) ->
  exists st', pair_step st key inner_key = Ok st'.
Proof.
  intros Hwp Hk Hik Hranks. unfold pair_step, int_rank. rewrite Hk, Hik.
  destruct (skip_pair key inner_key v iv) as [[|]|] eqn:Hskip;
    [simpl; eauto| |].
  - simpl. destruct (_ && _); [eauto|].
    case_bool_decide as Hcells; [|eauto].
    destruct (Hranks (skip_pair_false_ne _ _ _ _ Hskip) Hcells)
      as (rv & ri & -> & -> & Hne). simpl.
    destruct (ri <? rv) eqn:H1; [eauto|].
    destruct (rv <? ri) eqn:H2; [eauto|].
    apply Z.ltb_ge in H1, H2. lia.
  - destruct (skip_pair_Ok st key inner_key v iv Hwp Hk) as [skip Hs]. congruence.
Qed.

Lemma run_pairs_Ok (st0 : gmap string Entry) pairs : forall st,
  well_parented st ->
  clear_parent <$> st = clear_parent <$> st0 ->
  (forall key inner_key, (key, inner_key) ∈ pairs ->
     is_Some (st0 !! key) /\ is_Some (st0 !! inner_key)) ->
  (forall a b (ea eb : Entry), a <> b ->
     st0 !! a = Some ea -> st0 !! b = Some eb -> cell_ids ea = cell_ids eb ->
     exists ra rb, py_int (rank ea) = Some ra /\ py_int (rank eb) = Some rb /\
                   ra <> rb) ->
  exists st', run_pairs pairs st = Ok st'.
Proof.
  induction pairs as [|[key inner_key] pairs IH]; intros st Hwp Hstatic Hkeys Hranks;
    [by eexists|].
  simpl.
  destruct (Hkeys key inner_key) as [[v0 Hk0] [iv0 Hik0]]; [by left|].
  destruct (static_lookup _ _ _ _ Hstatic Hk0) as (v & Hk & Hsv).
  destruct (static_lookup _ _ _ _ Hstatic Hik0) as (iv & Hik & Hsiv).
  apply clear_parent_fields in Hsv as (Hcv & _ & Hrv & _).
  apply clear_parent_fields in Hsiv as (Hciv & _ & Hriv & _).
  destruct (pair_step_Ok st key inner_key v iv Hwp Hk Hik) as [st1 Hstep].
  { intros Hne Hcells. rewrite Hrv, Hriv.
    apply (Hranks key inner_key v0 iv0 Hne Hk0 Hik0). congruence. }
  rewrite Hstep. simpl.
  pose proof (pair_step_effect _ _ _ _ Hstep) as Heff.
  apply IH; [by eapply pair_effect_well_parented| | |done].
  - by rewrite (pair_effect_static _ _ _ _ Heff).
  - intros k1 k2 Hin. apply Hkeys. by right.
Qed.

(** X16: on a well-formed lookup without parent fields
    [add_parent_cell_hierarchy] returns whenever any two distinct entries
    with the same cell-id set have ranks that [int] accepts and that
    differ; entries with a cell set of their own need no numeric rank. *)
Theorem hierarchy_returns_without_ties d :
  dict_wf d -> unparented (dict_store d) ->
  (forall a b (ea eb : Entry), a <> b ->
     dict_get d a = Some ea -> dict_get d b = Some eb ->
     cell_ids ea = cell_ids eb ->
     exists ra rb, py_int (rank ea) = Some ra /\ py_int (rank eb) = Some rb /\
                   ra <> rb) ->
  exists d', add_parent_cell_hierarchy d = Ok d'.
Proof.
  intros [_ Hdom] Hun Hranks. unfold add_parent_cell_hierarchy.
  destruct (run_pairs_Ok (dict_store d) (product2 (dict_keys d)) (dict_store d))
    as [st' ->]; [by apply unparented_well_parented|done| |done|by eexists].
  intros key inner_key [H1 H2]%product2_keys. split; by apply Hdom.
Qed.
End HierarchyMore.
(** ** More on the annotation enricher *)

Section EnricherMore.
Variable parent_cell_look_up : pydict Entry.
Implicit Types (a : Annotation) (l : list Annotation) (i : nat).

Local Abbreviation enrich' := (enrich parent_cell_look_up).

Lemma enrich_parent_fields a :
  match dict_get parent_cell_look_up (ann_cell_label a) with
  | Some e =>
      if truthy (parent e) && truthy (p_accession e)
      then parent_cell_set_name (enrich' a) = parent e /\
           parent_cell_set_accession (enrich' a) = p_accession e
      else enrich' a = a
  | None => enrich' a = a
  end.
Proof.
  unfold enrich.
  destruct (dict_get parent_cell_look_up (ann_cell_label a)) as [e|]; simpl; [|done].
  destruct (truthy (parent e) && truthy (p_accession e)); [|done].
  by destruct (bool_decide _ && bool_decide _).
Qed.

(** X17: [add_parent_hierarchy_to_annotations] returns as many records
    as it was given, in the same order; a record keeps its labelset,
    label, full name, accession and cell ids; it gets the parent label
    and parent accession of its label's lookup entry when both are set
    and non-empty, and is returned untouched otherwise (also when the
    lookup has no entry for its label). *)
Theorem enrichment_keeps_records l :
  let out := add_parent_hierarchy_to_annotations l parent_cell_look_up in
  length out = length l /\
  forall i a, l !! i = Some a ->
    exists a', out !! i = Some a' /\
      ann_labelset a' = ann_labelset a /\
      ann_cell_label a' = ann_cell_label a /\
      ann_cell_fullname a' = ann_cell_fullname a /\
      ann_cell_set_accession a' = ann_cell_set_accession a /\
      ann_cell_ids a' = ann_cell_ids a /\
      match dict_get parent_cell_look_up (ann_cell_label a) with
      | Some e =>
          if truthy (parent e) && truthy (p_accession e)
          then parent_cell_set_name a' = parent e /\
               parent_cell_set_accession a' = p_accession e
          else a' = a
      | None => a' = a
      end.
Proof.
  intros out. subst out. rewrite add_parent_hierarchy_to_annotations_fmap.
  split; [apply length_fmap|].
  intros i a Hi. exists (enrich' a).
  rewrite list_lookup_fmap, Hi. split; [done|].
  destruct (enrich_identity_fields parent_cell_look_up a) as (? & ? & ? & ? & ?).
  repeat (split; [done|]). apply enrich_parent_fields.
Qed.

Lemma enrich_idempotent a : enrich' (enrich' a) = enrich' a.
Proof.
  destruct (enrich_identity_fields parent_cell_look_up a) as (_ & Hlabel & _).
  unfold enrich at 1. rewrite Hlabel.
  unfold enrich.
  destruct (dict_get parent_cell_look_up (ann_cell_label a)) as [e|]; simpl; [|done].
  destruct (truthy (parent e) && truthy (p_accession e)); [|done].
  destruct (parent e) as [p|]; simpl.
  - destruct (dict_get parent_cell_look_up p) as [pe|]; simpl.
    + destruct (bool_decide (Some (cell_ontology_term_id pe)
                             = ann_cell_ontology_term_id a)) eqn:H1; simpl.
      * destruct (bool_decide (Some (cell_ontology_term pe)
                               = ann_cell_ontology_term a)) eqn:H2; simpl.
        -- done.
        -- by rewrite H1, H2.
      * by rewrite H1.
    + destruct (bool_decide (None = ann_cell_ontology_term_id a)) eqn:H1; simpl.
      * destruct (bool_decide (None = ann_cell_ontology_term a)) eqn:H2; simpl.
        -- done.
        -- by rewrite H1, H2.
      * by rewrite H1.
  - destruct (bool_decide (None = ann_cell_ontology_term_id a)) eqn:H1; simpl.
    + destruct (bool_decide (None = ann_cell_ontology_term a)) eqn:H2; simpl.
      * done.
      * by rewrite H1, H2.
    + by rewrite H1.
Qed.

(** X18: enriching twice with the same lookup gives what enriching once
    gives: a second pass neither restores a removed field nor removes
    another one. *)
Theorem enrichment_is_idempotent l :
  add_parent_hierarchy_to_annotations
    (add_parent_hierarchy_to_annotations l parent_cell_look_up)
    parent_cell_look_up
  = add_parent_hierarchy_to_annotations l parent_cell_look_up.
Proof.
  rewrite !add_parent_hierarchy_to_annotations_fmap, <- list_fmap_compose.
  apply list_fmap_ext. intros i a _. apply enrich_idempotent.
Qed.
End EnricherMore.

(** ** JSON cleaning (cas/linkml/data.py) *)

Section Json.

Lemma json_ind (P : json -> Prop) :
  P JNull -> (forall b, P (JBool b)) -> (forall n, P (JNumber n)) ->
  (forall s, P (JString s)) ->
  (forall items, Forall P items -> P (JArray items)) ->
  (forall fields, Forall (fun kv => P kv.2) fields -> P (JObject fields)) ->
  forall j, P j.
Proof.
  intros Hnull Hbool Hnum Hstr Harr Hobj.
  fix IH 1. intros [| b | n | s | items | fields].
  - exact Hnull.
  - apply Hbool.
  - apply Hnum.
  - apply Hstr.
  - apply Harr. induction items as [|x items IHl]; constructor.
    + apply IH.
    + exact IHl.
  - apply Hobj. induction fields as [|[k x] fields IHl]; constructor.
    + apply IH.
    + exact IHl.
Qed.

Lemma remove_keeps_non_empty (j : json) :
  is_empty_string j = false -> is_empty_string (remove_empty_strings j) = false.
Proof. by destruct j. Qed.

Lemma remove_empty_strings_result (json_data : json) :
  has_empty_string (remove_empty_strings json_data) = false.
Proof.
  induction json_data as [| | | |items IH|fields IH] using json_ind; try done.
  - simpl. induction IH as [|x items Hx _ IHl]; [done|].
    destruct (is_empty_string x) eqn:Hempty; [done|].
    cbn [has_empty_string]. rewrite (remove_keeps_non_empty x Hempty), Hx. simpl.
    exact IHl.
  - simpl. induction IH as [|[k x] fields Hx _ IHl]; [done|].
    destruct (is_empty_string x) eqn:Hempty; [done|].
    cbn [has_empty_string]. simpl in Hx.
    rewrite (remove_keeps_non_empty x Hempty), Hx. simpl.
    exact IHl.
Qed.

(** X19: whatever the input, the result of [remove_empty_strings] has no
    empty string left as a member of a list or as the value of a key, at
    any depth; a scalar, the empty string included, is returned as it is. *)
Theorem remove_empty_strings_leaves_none (json_data : json) :
  has_empty_string (remove_empty_strings json_data) = false /\
  (forall s, json_data = JString s -> remove_empty_strings json_data = JString s).
Proof.
  split; [apply remove_empty_strings_result|]. by intros s ->.
Qed.

Lemma remove_empty_strings_clean (j : json) :
  has_empty_string j = false -> remove_empty_strings j = j.
Proof.
  induction j as [| | | |items IH|fields IH] using json_ind; try done.
  - intros Hclean. simpl. f_equal. simpl in Hclean.
    induction IH as [|x items Hx _ IHl]; [done|].
    apply orb_false_elim in Hclean as [[Hempty Hin]%orb_false_elim Hrest].
    rewrite Hempty, (Hx Hin). f_equal. by apply IHl.
  - intros Hclean. simpl. f_equal. simpl in Hclean.
    induction IH as [|[k x] fields Hx _ IHl]; [done|].
    apply orb_false_elim in Hclean as [[Hempty Hin]%orb_false_elim Hrest].
    simpl in Hx. rewrite Hempty, (Hx Hin). f_equal. by apply IHl.
Qed.

(** X20: data that holds no empty string in a list or under a key is
    returned as it is, and a second [remove_empty_strings] changes
    nothing the first one left. *)
Theorem remove_empty_strings_fixpoint (json_data : json) :
  (has_empty_string json_data = false ->
     remove_empty_strings json_data = json_data) /\
  remove_empty_strings (remove_empty_strings json_data)
  = remove_empty_strings json_data.
Proof.
  split; [apply remove_empty_strings_clean|].
  apply remove_empty_strings_clean, remove_empty_strings_result.
Qed.
End Json.
(** ** The theorems above at concrete inputs *)

Lemma dict_of_list_wf {V} (l : list (string * V)) : dict_wf (dict_of_list l).
Proof.
  unfold dict_of_list. generalize (dict_wf_empty (V := V)).
  generalize (@dict_empty V). induction l as [|[k v] l IH]; intros d Hd; [done|].
  simpl. apply IH. by apply dict_wf_set.
Qed.

Lemma two_ranks_entries (k : string) (e : Entry) :
  dict_get two_ranks k = Some e ->
  (k = "alpha" /\ e = entry ["5"; "6"; "7"] "acc_alpha" "3") \/
  (k = "beta" /\ e = entry ["5"; "6"; "7"] "acc_beta" "1").
Proof.
  unfold dict_get, two_ranks, dict_of_list. simpl. intros Hk.
  destruct (decide (k = "beta")) as [->|Hb].
  { rewrite lookup_insert_eq in Hk. right. by simplify_eq. }
  rewrite lookup_insert_ne in Hk by done.
  destruct (decide (k = "alpha")) as [->|Ha].
  { rewrite lookup_insert_eq in Hk. left. by simplify_eq. }
  rewrite lookup_insert_ne in Hk by done. by rewrite lookup_empty in Hk.
Qed.

Lemma get_cl_annotations_first_match_witness :
  get_cl_annotations_from_anndata family_table "Cluster" "c2" = Ok ("CL:2", "glia").
Proof.
  apply (proj2 (get_cl_annotations_first_match family_table "Cluster" "c2"
                  ["c1"; "c2"] ["CL:1"; "CL:2"] ["neuron"; "glia"]
                  eq_refl eq_refl eq_refl) 1%nat "CL:2" "glia");
    [reflexivity| |reflexivity|reflexivity].
  intros [|j] y Hj Hy; [|lia]. simpl in Hy. by simplify_eq.
Defined.

Lemma calculate_labelset_spec_witness :
  exists d, calculate_labelset family_table ["Class"; "Cluster"] = Ok d /\
            dict_keys d = ["Class"; "Cluster"].
Proof.
  destruct (calculate_labelset_spec family_table ["Class"; "Cluster"])
    as (d & Hd & _ & Hkeys & _).
  - by_compute.
  - intros item Hitem. apply (bool_decide_unpack _).
    apply elem_of_cons in Hitem as [->|Hitem]; [by vm_compute|].
    apply list_elem_of_singleton in Hitem as ->. by vm_compute.
  - by exists d.
Defined.

Lemma calculate_labelset_missing_column_witness :
  calculate_labelset family_table ["Class"; "Subclass"; "Cluster"]
  = Raise (KeyError "Subclass").
Proof.
  apply (calculate_labelset_missing_column family_table ["Class"] "Subclass"
           ["Cluster"]).
  - intros x ->%list_elem_of_singleton. apply (bool_decide_unpack _). by vm_compute.
  - by vm_compute.
Defined.

Lemma lookup_has_exactly_the_labels_witness :
  dict_wf shared_label_lookup /\
  (is_Some (dict_get shared_label_lookup "x") <->
   exists k v, (k, v, "x") ∈ occurrences shared_label_labelsets).
Proof.
  destruct (lookup_has_exactly_the_labels (py := cpython) (am := plain_accessions)
              shared_label_table shared_label_labelsets shared_label_lookup eq_refl)
    as (Hwf & _ & Hlabels).
  split; [exact Hwf|apply Hlabels].
Defined.


Lemma lookup_of_unknown_label_fails_witness :
  generate_parent_cell_lookup (H := cpython) (H0 := plain_accessions)
    family_table ghost_labelsets = Raise IndexError.
Proof.
  apply (lookup_of_unknown_label_fails (py := cpython) (am := plain_accessions)
           family_table ghost_labelsets "Class"
           {| members := ["ghost"]; labelset_rank := "0" |} "ghost"
           ["cl1"; "cl1"] [] [] dict_empty).
  - vm_compute. reflexivity.
  - reflexivity.
  - reflexivity.
  - split; apply (bool_decide_unpack _); by vm_compute.
  - by_compute.
Defined.

Lemma generate_cas_annotations_spec_witness :
  exists new, family_annotations = ([] ++ new)%list /\ length new = 3%nat.
Proof.
  destruct (generate_cas_annotations_spec (py := cpython) family_table []
              family_labelsets family_lookup family_annotations eq_refl)
    as (new & Hnew & Hlen & _).
  exists new. split; [exact Hnew|]. rewrite Hlen. reflexivity.
Defined.

Lemma generate_cas_annotations_missing_label_witness :
  generate_cas_annotations (H := cpython) family_table [] family_labelsets
    dict_empty
  = Raise (KeyError "cl1").
Proof.
  apply (generate_cas_annotations_missing_label (py := cpython) family_table []
           family_labelsets dict_empty "Class"
           {| members := ["cl1"]; labelset_rank := "1" |} "cl1" []
           [ ("Cluster", {| members := ["c1"; "c2"]; labelset_rank := "0" |}, "c1");
             ("Cluster", {| members := ["c1"; "c2"]; labelset_rank := "0" |}, "c2") ]
           []).
  - vm_compute. reflexivity.
  - reflexivity.
  - apply (bool_decide_unpack _). by vm_compute.
  - reflexivity.
Defined.

Lemma annotations_after_hierarchy_succeed_witness :
  exists anns', generate_cas_annotations (H := cpython) family_table []
                  family_labelsets family_lookup = Ok anns'.
Proof.
  apply (annotations_after_hierarchy_succeed (py := cpython)
           (am := plain_accessions) family_table family_labelsets
           family_lookup_bare family_lookup []).
  - vm_compute. reflexivity.
  - vm_compute. reflexivity.
Defined.

Lemma lookup_cells_are_rows_witness :
  "c2" ∈ df_index shared_label_table.
Proof.
  destruct (dict_get shared_label_lookup "x") as [e|] eqn:He; [|by vm_compute in He].
  apply (lookup_cells_are_rows (py := cpython) (am := plain_accessions)
           shared_label_table shared_label_labelsets shared_label_lookup "x" e "c2"
           eq_refl He).
  vm_compute in He. injection He as <-. by_compute.
Defined.

Lemma annotation_cells_within_entry_witness :
  exists a e, family_annotations !! 1%nat = Some a /\
              dict_get family_lookup (ann_cell_label a) = Some e /\
              "1" ∈ cell_ids e.
Proof.
  destruct (family_annotations !! 1%nat) as [a|] eqn:Ha; [|by vm_compute in Ha].
  destruct (annotation_cells_within_entry (py := cpython) (am := plain_accessions)
              family_table family_labelsets family_lookup_bare family_lookup []
              family_annotations a "1") as (e & He & Hc).
  - vm_compute. reflexivity.
  - vm_compute. reflexivity.
  - reflexivity.
  - simpl. by eapply list_elem_of_lookup_2.
  - vm_compute in Ha. injection Ha as <-. by_compute.
  - exists a, e. done.
Defined.

Lemma hierarchy_writes_parent_fields_only_witness :
  dict_keys two_ranks_done = dict_keys two_ranks.
Proof.
  exact (proj1 (hierarchy_writes_parent_fields_only (py := cpython)
                  two_ranks two_ranks_done eq_refl)).
Defined.

Lemma parent_fields_are_consistent_witness :
  exists pe, dict_get two_ranks_done "alpha" = Some pe /\
             accession pe = "acc_alpha" /\ rank pe = "3".
Proof.
  assert (unparented (dict_store two_ranks)) as Hun by by_compute.
  pose proof (parent_fields_are_consistent (py := cpython) two_ranks two_ranks_done
                "beta"
                (update_parent_info (entry ["5"; "6"; "7"] "acc_beta" "1") "alpha"
                   (entry ["5"; "6"; "7"] "acc_alpha" "3"))
                Hun eq_refl eq_refl) as (_ & pe & Hpe & Hacc & Hrk).
  simpl in Hacc, Hrk. exists pe. split; [exact Hpe|]. split; congruence.
Defined.

Lemma parent_iff_some_entry_above_witness :
  exists b eb, dict_get two_ranks_done b = Some eb.
Proof.
  assert (unparented (dict_store two_ranks)) as Hun by by_compute.
  destruct (proj1 (parent_iff_some_entry_above (py := cpython) two_ranks
                     two_ranks_done "beta"
                     (update_parent_info (entry ["5"; "6"; "7"] "acc_beta" "1")
                        "alpha" (entry ["5"; "6"; "7"] "acc_alpha" "3"))
                     (dict_of_list_wf _) Hun eq_refl eq_refl))
    as (b & eb & Hb & _).
  - simpl. eauto.
  - by exists b, eb.
Defined.

Lemma hierarchy_raises_value_error_only_witness :
  exists msg, ValueError (ambiguity_message "A" "B") = ValueError msg.
Proof.
  assert (unparented (dict_store plain_twins)) as Hun by by_compute.
  apply (hierarchy_raises_value_error_only (py := cpython) plain_twins
           (ValueError (ambiguity_message "A" "B")) (dict_of_list_wf _) Hun).
  vm_compute. reflexivity.
Defined.

Lemma hierarchy_returns_without_ties_witness :
  exists d', add_parent_cell_hierarchy (H := cpython) two_ranks = Ok d'.
Proof.
  assert (unparented (dict_store two_ranks)) as Hun by by_compute.
  apply (hierarchy_returns_without_ties (py := cpython) two_ranks
           (dict_of_list_wf _) Hun).
  intros a b ea eb Hne Ha Hb _.
  apply two_ranks_entries in Ha as [[-> ->]|[-> ->]];
    apply two_ranks_entries in Hb as [[-> ->]|[-> ->]]; try done.
  - exists 3, 1. by vm_compute.
  - exists 1, 3. by vm_compute.
Defined.
